(** * Student-club front end: form schemas, sub-list managers, login submit

    A shallow embedding of the validation and form logic of the portfolio
    editor (two variants of [StudentPortfolioForm]) and of the login page.

    The repository's own code is the schema declarations, the field-array
    manager bindings and the two submit handlers.  They are written against
    three libraries (zod, react-hook-form, axios); the part of each library
    that the code exercises is modelled first ([Regex], [Zod], [Rhf]),
    then the repository's declarations are transcribed on top of it. *)

From Stdlib Require Import Ascii NArith Bool Lia.
From stdpp Require Import base option list strings gmap fin_maps.

Set Default Proof Using "Type".
Local Open Scope nat_scope.

(** ** JavaScript strings

    A string is its sequence of code units, and [String.length s] is JS
    [s.length].  An [ascii] stands for a code unit below 256: the ASCII
    units, which every pattern of the schemas is written for, and the
    accented letters of Latin-1 above them. *)

Module Js.

Definition code (c : ascii) : N := N_of_ascii c.

Definition between (lo hi c : ascii) : bool :=
  (code lo <=? code c)%N && (code c <=? code hi)%N.

(** The code units of a string, in order. *)
Fixpoint chars (s : string) : list ascii :=
  match s with
  | EmptyString => []
  | String c s' => c :: chars s'
  end.

(** The ASCII units are those below 128. *)
Definition is_ascii (c : ascii) : bool := (code c <? 128)%N.

(** A text of ASCII units only. *)
Definition ascii_text (s : string) : bool := forallb is_ascii (chars s).

(** The capital of an ASCII unit: the letters [a-z] have [A-Z], every
    other ASCII unit is its own capital. *)
Definition upper_char (c : ascii) : ascii :=
  if between "a" "z" c then ascii_of_N (code c - 32) else c.

(** [val.toUpperCase()] is the runtime's: the case conversion of Unicode,
    which the program only calls.  It is a parameter here, together with
    the facts of its definition that the properties below rest on.  The
    empty text has the empty upper-casing.  The conversion goes code point
    by code point and looks at no neighbour, and an ASCII unit is a code
    point of its own whose capital is [upper_char]: so an ASCII unit is
    upper-cased in place, whatever stands before and after it.  And an
    upper-cased text is left as it is by a second conversion.  What becomes
    of a unit that is not ASCII is left to the runtime (sharp s, for one,
    becomes the two letters SS). *)
Class Casing : Type := mkCasing
  { toUpperCase : string → string;
    toUpperCase_empty : toUpperCase EmptyString = EmptyString;
    toUpperCase_ascii (s1 : string) (c : ascii) (s2 : string) :
      is_ascii c = true →
      toUpperCase (s1 +:+ String c s2)
      = toUpperCase s1 +:+ String (upper_char c) (toUpperCase s2);
    toUpperCase_twice (s : string) :
      toUpperCase (toUpperCase s) = toUpperCase s }.

(** [xs.includes(x)] on an array of strings. *)
Definition includes (xs : list string) (x : string) : bool :=
  bool_decide (x ∈ xs).

End Js.

(** ** Regular expressions

    The patterns of the source use literals, character classes, grouping,
    alternation, [?] and counted repetition [{n}], [{m,n}]; every one of
    them is anchored with [^] and [$] and carries no flag, so
    [re.test(s)] asks whether the whole of [s] belongs to the pattern's
    language. *)

Module Regex.

Inductive re : Type :=
  | Fail                                (* no string at all *)
  | Eps                                 (* the empty string *)
  | Chr (c : ascii)                     (* a literal or escaped character *)
  | Cls (rs : list (ascii * ascii))     (* a class [[a-bc-d]] of ranges *)
  | Seq (r1 r2 : re)                    (* juxtaposition *)
  | Alt (r1 r2 : re).                   (* r1|r2 *)

Definition in_class (rs : list (ascii * ascii)) (c : ascii) : bool :=
  existsb (λ '(lo, hi), Js.between lo hi c) rs.

(** Sugar used by the transcriptions. *)
Fixpoint lit (s : string) : re :=
  match s with
  | EmptyString => Eps
  | String c s' => Seq (Chr c) (lit s')
  end.

Fixpoint alts (rs : list re) : re :=
  match rs with
  | [] => Fail
  | [r] => r
  | r :: rs' => Alt r (alts rs')
  end.

Definition opt (r : re) : re := Alt r Eps.                  (* r? *)

Fixpoint rep (n : nat) (r : re) : re :=                     (* r{n} *)
  match n with
  | O => Eps
  | S n' => Seq r (rep n' r)
  end.

Fixpoint upto (n : nat) (r : re) : re :=                    (* r{0,n} *)
  match n with
  | O => Eps
  | S n' => opt (Seq r (upto n' r))
  end.

Definition rep_range (m n : nat) (r : re) : re :=           (* r{m,n} *)
  Seq (rep m r) (upto (n - m) r).

Definition digit : re := Cls [("0", "9")]%char.             (* \d, [0-9] *)
Definition AZ : re := Cls [("A", "Z")]%char.                (* [A-Z] *)

(** *** The matcher: Brzozowski derivatives *)

Fixpoint nullable (r : re) : bool :=
  match r with
  | Fail => false
  | Eps => true
  | Chr _ => false
  | Cls _ => false
  | Seq r1 r2 => nullable r1 && nullable r2
  | Alt r1 r2 => nullable r1 || nullable r2
  end.

Fixpoint deriv (c : ascii) (r : re) : re :=
  match r with
  | Fail => Fail
  | Eps => Fail
  | Chr c' => if bool_decide (c = c') then Eps else Fail
  | Cls rs => if in_class rs c then Eps else Fail
  | Seq r1 r2 =>
      if nullable r1
      then Alt (Seq (deriv c r1) r2) (deriv c r2)
      else Seq (deriv c r1) r2
  | Alt r1 r2 => Alt (deriv c r1) (deriv c r2)
  end.

(** [/^r$/.test(s)] *)
Fixpoint test (r : re) (s : string) : bool :=
  match s with
  | EmptyString => nullable r
  | String c s' => test (deriv c r) s'
  end.

(** *** The language of a pattern, as a relation *)

Inductive Lang : re → string → Prop :=
  | Lang_eps : Lang Eps EmptyString
  | Lang_chr c : Lang (Chr c) (String c EmptyString)
  | Lang_cls rs c : in_class rs c = true → Lang (Cls rs) (String c EmptyString)
  | Lang_seq r1 r2 s1 s2 :
    Lang r1 s1 → Lang r2 s2 → Lang (Seq r1 r2) (s1 +:+ s2)
  | Lang_alt_l r1 r2 s : Lang r1 s → Lang (Alt r1 r2) s
  | Lang_alt_r r1 r2 s : Lang r2 s → Lang (Alt r1 r2) s.

(** Characters that occur in some leaf of the pattern. *)
Fixpoint alphabet (r : re) (c : ascii) : bool :=
  match r with
  | Fail | Eps => false
  | Chr c' => bool_decide (c = c')
  | Cls rs => in_class rs c
  | Seq r1 r2 | Alt r1 r2 => alphabet r1 c || alphabet r2 c
  end.

(** The strings of a pattern's language, listed (no pattern of the source
    has a star, so there are finitely many). *)
Definition all_chars : list ascii := ascii_of_nat <$> seq 0 256.

Fixpoint words (r : re) : list string :=
  match r with
  | Fail => []
  | Eps => [EmptyString]
  | Chr c => [String c EmptyString]
  | Cls rs =>
      (λ c, String c EmptyString) <$> filter (λ c, in_class rs c) all_chars
  | Seq r1 r2 => s1 ← words r1; (λ s2, s1 +:+ s2) <$> words r2
  | Alt r1 r2 => words r1 ++ words r2
  end.

End Regex.

(** ** The browser objects the schemas look at *)

Module Dom.

(** A [File]: its name, its [size] in bytes and its MIME [type]. *)
Record File : Type := mkFile { fname : string; size : N; type : string }.

(** What a form field can hold where the schema does not fix its shape:
    [undefined], the [FileList] of a file input, or a plain object. *)
#[warnings="-register-all"]
Inductive Value : Type :=
  | Undefined
  | FileList (files : list File)
  | Object (props : list (string * Value)).

(** [v[k]] for a property name [k] that is neither an index nor [length]:
    a [FileList] has no such property. *)
Definition get (v : Value) (k : string) : Value :=
  match v with
  | Object props =>
      match list_find (λ kv, kv.1 = k) props with
      | Some (_, (_, x)) => x
      | None => Undefined
      end
  | FileList _ | Undefined => Undefined
  end.

End Dom.

(** ** zod: schemas as parsers that collect issues

    A schema maps a raw value, at a path, to an optional output and the
    list of issues it raised.  The output is [None] when parsing was
    aborted (a wrong type, a failed enum, a fatal custom check); a failed
    string check or refinement leaves the value in place and adds its
    issue.  [safeParse] succeeds when no issue was raised. *)

Module Zod.

Inductive Seg : Type :=
  | Key (k : string)          (* an object key *)
  | Idx (i : nat).            (* an array index *)

#[global] Instance Seg_eq_dec : EqDecision Seg.
Proof. solve_decision. Defined.

#[global] Instance Seg_countable : Countable Seg :=
  inj_countable'
    (λ s, match s with Key k => inl k | Idx i => inr i end)
    (λ x, match x with inl k => Key k | inr i => Idx i end)
    (λ s, match s with Key _ | Idx _ => eq_refl end).

(** An issue: where, and the message given in the schema ([None] stands for
    the library's default wording, which the schemas leave unnamed). *)
Record Issue : Type := mkIssue { path : list Seg; message : option string }.

#[global] Instance Issue_eq_dec : EqDecision Issue.
Proof. solve_decision. Defined.

Record Parsed (A : Type) : Type := mkParsed
  { value : option A; issues : list Issue }.
Arguments mkParsed {A} _ _.
Arguments value {A} _.
Arguments issues {A} _.

Definition Schema (I O : Type) : Type := list Seg → I → Parsed O.

Definition success {A} (r : Parsed A) : bool := bool_decide (issues r = []).

(** *** Objects: one key after the other, issues in key order; the object
    is aborted when one of its keys is. *)
Definition pure {A} (a : A) : Parsed A := mkParsed (Some a) [].

Definition ap {A B} (rf : Parsed (A → B)) (ra : Parsed A) : Parsed B :=
  mkParsed
    (match value rf, value ra with
     | Some f, Some a => Some (f a)
     | _, _ => None
     end)
    (issues rf ++ issues ra).

Definition map {A B} (f : A → B) (r : Parsed A) : Parsed B :=
  mkParsed (f <$> value r) (issues r).

Definition field {I O} (k : string) (sch : Schema I O) : Schema I O :=
  λ p x, sch (p ++ [Key k]) x.

(** *** z.string() and its checks, run in the order they were chained *)
Record Check : Type := mkCheck { holds : string → bool; msg : option string }.

Definition run_checks (cs : list Check) (p : list Seg) (s : string)
  : list Issue :=
  flat_map (λ c, if holds c s then [] else [mkIssue p (msg c)]) cs.

Definition string_ (cs : list Check) : Schema string string :=
  λ p s, mkParsed (Some s) (run_checks cs p s).

Definition min (n : nat) (m : option string) : Check :=
  mkCheck (λ s, n <=? String.length s) m.
Definition max (n : nat) (m : option string) : Check :=
  mkCheck (λ s, String.length s <=? n) m.
Definition nonempty (m : option string) : Check := min 1 m.
Definition regex (r : Regex.re) (m : option string) : Check :=
  mkCheck (Regex.test r) m.

(** The format checks [.date()], [.email()] and [.url()] are decided inside
    the library (a calendar pattern, an address pattern, the platform's URL
    parser); the schemas only name them. *)
Class Formats : Type := mkFormats
  { is_date : string → bool; is_email : string → bool; is_url : string → bool }.

Definition date `{Formats} (m : option string) : Check := mkCheck is_date m.
Definition email `{Formats} (m : option string) : Check := mkCheck is_email m.
Definition url `{Formats} (m : option string) : Check := mkCheck is_url m.

(** *** .transform(f): applied only to a valid inner result *)
Definition transform {I A B} (f : A → B) (sch : Schema I A) : Schema I B :=
  λ p x,
    let r := sch p x in
    match issues r with
    | [] => mkParsed (f <$> value r) []
    | _ :: _ => mkParsed None (issues r)
    end.

(** *** .refine(ok, m): runs unless the inner result was aborted *)
Definition refine {I A} (ok : A → bool) (m : option string)
    (sch : Schema I A) : Schema I A :=
  λ p x,
    let r := sch p x in
    match value r with
    | Some v => if ok v then r else mkParsed (Some v) (issues r ++ [mkIssue p m])
    | None => r
    end.

(** *** z.enum([...]) *)
Definition enum_ (options : list string) : Schema string string :=
  λ p s,
    if Js.includes options s then pure s else mkParsed None [mkIssue p None].

(** A schema that is not [.optional()] rejects [undefined]. *)
Definition required {I O} (sch : Schema I O) : Schema (option I) O :=
  λ p x,
    match x with
    | Some i => sch p i
    | None => mkParsed None [mkIssue p None]
    end.

Definition optional {I O} (sch : Schema I O) : Schema (option I) (option O) :=
  λ p x,
    match x with
    | Some i => let r := sch p i in mkParsed (Some <$> value r) (issues r)
    | None => pure None
    end.

(** *** z.array(sch): every element, at its index *)
Definition array {I O} (sch : Schema I O) : Schema (list I) (list O) :=
  λ p xs,
    let rs := imap (λ i x, sch (p ++ [Idx i]) x) xs in
    mkParsed (mapM value rs) (concat (issues <$> rs)).

(** *** z.instanceof(C) on a value already known to be a [C] *)
Definition instanceof {A} : Schema A A := λ _ x, pure x.

(** *** z.custom(check, m): a failed check is fatal, the refinements
    chained after it do not run. *)
Definition custom {I A} (check : I → option A) (m : option string)
  : Schema I A :=
  λ p x,
    match check x with
    | Some a => pure a
    | None => mkParsed None [mkIssue p m]
    end.

(** *** z.object({...}) on a value of unknown shape: [undefined] is not an
    object; anything else is read property by property. *)
Definition object_ {O} (shape : Schema Dom.Value O) : Schema Dom.Value O :=
  λ p v,
    match v with
    | Dom.Undefined => mkParsed None [mkIssue p None]
    | Dom.FileList _ | Dom.Object _ => shape p v
    end.

Definition prop {O} (k : string) (sch : Schema Dom.Value O)
  : Schema Dom.Value O :=
  λ p v, sch (p ++ [Key k]) (Dom.get v k).

(** A schema reports below the path it is run at. *)
Definition scoped {I O} (sch : Schema I O) : Prop :=
  ∀ p x, Forall (λ i, p `prefix_of` path i) (issues (sch p x)).

(** The issues of a result that sit at path [p]. *)
Definition issues_at {A} (p : list Seg) (r : Parsed A) : list Issue :=
  filter (λ i, path i = p) (issues r).

End Zod.

Notation "f <*> a" := (Zod.ap f a) (at level 61, left associativity).
Notation "f <$$> r" := (Zod.map f r) (at level 60, right associativity).

(** ** react-hook-form: the resolver, handleSubmit and useFieldArray *)

Module Rhf.

(** [zodResolver(schema)]: on failure the issues become the form's error
    object, keyed by field path; the first issue raised at a path is the
    one kept. *)
Definition toErrors (iss : list Zod.Issue)
  : gmap (list Zod.Seg) (option string) :=
  foldr (λ i m, <[Zod.path i := Zod.message i]> m) ∅ iss.

(** What a submit attempt leaves behind: the error object and the effects
    of the submit handler, when it ran. *)
Record Outcome (E : Type) : Type := mkOutcome
  { errors : gmap (list Zod.Seg) (option string); effects : list E }.
Arguments mkOutcome {E} _ _.
Arguments errors {E} _.
Arguments effects {E} _.

(** [form.handleSubmit(onValid)]: validate the whole document; call
    [onValid] with the parsed output only when nothing failed. *)
Definition handleSubmit {I O E}
    (schema : Zod.Schema I O) (onValid : O → list E) (values : I)
  : Outcome E :=
  let r := schema [] values in
  match Zod.issues r, Zod.value r with
  | [], Some data => mkOutcome ∅ (onValid data)
  | iss, _ => mkOutcome (toErrors iss) []
  end.

(** *** useFieldArray

    The form holds one array of values per field name.  [append] and
    [remove] of a manager bound to [name] read the form's array under
    [name], write the changed array back to the form, and put it into the
    manager's own [fields] state.  A manager is not told of what another
    manager writes: its [fields] change only through its own calls. *)

(** **** What a manager writes to the form

    The form's arrays are kept by field name ([gmap string (list V)]): they
    are what [getValues] returns and what the resolver validates on
    submit. *)

(** The form's array under [name] (none yet: empty). *)
Definition getFieldArray {V} (name : string) (vs : gmap string (list V))
  : list V :=
  default [] (vs !! name).

(** The write of [append(value)], for a manager bound to [name]. *)
Definition appendValue {V} (name : string) (v : V)
    (vs : gmap string (list V)) : gmap string (list V) :=
  <[name := getFieldArray name vs ++ [v]]> vs.

(** The write of [remove(index)], for a manager bound to [name]. *)
Definition removeValue {V} (name : string) (index : nat)
    (vs : gmap string (list V)) : gmap string (list V) :=
  <[name := delete index (getFieldArray name vs)]> vs.

(** **** A form whose array names have one manager each

    With a single manager on [name], the [fields] of that manager are the
    form's array under [name], row by row.  Every row carries the key
    ([id]) it was given when it was appended; keys come from a generator
    that never repeats one, modelled as a counter. *)
Record Row (V : Type) : Type := mkRow { id : nat; entry : V }.
Arguments mkRow {V} _ _.
Arguments id {V} _.
Arguments entry {V} _.

Record Control (V : Type) : Type := mkControl
  { arrays : gmap string (list (Row V)); nextId : nat }.
Arguments mkControl {V} _ _.
Arguments arrays {V} _.
Arguments nextId {V} _.

(** [fields] of the one manager bound to [name] (no array yet: no rows). *)
Definition fields {V} (name : string) (c : Control V) : list (Row V) :=
  default [] (arrays c !! name).

(** The form's arrays: the rows without their keys. *)
Definition values {V} (c : Control V) : gmap string (list V) :=
  (λ rows : list (Row V), entry <$> rows) <$> arrays c.

(** [append(value)] *)
Definition append {V} (name : string) (v : V) (c : Control V) : Control V :=
  mkControl (<[name := fields name c ++ [mkRow (nextId c) v]]> (arrays c))
            (S (nextId c)).

(** [remove(index)]: the row at [index] is spliced out; an index past the
    end removes nothing. *)
Definition remove {V} (name : string) (index : nat) (c : Control V)
  : Control V :=
  mkControl (<[name := delete index (fields name c)]> (arrays c)) (nextId c).

End Rhf.

(** ** axios: how a request settles *)

Module Axios.

Inductive Reply : Type :=
  | NetworkError                           (* no response arrived *)
  | Response (status : nat) (data : string).

(** The promise of [axios.post] resolves on a 2xx status and rejects on
    everything else. *)
Definition resolves (r : Reply) : option string :=
  match r with
  | Response status data =>
      if (200 <=? status) && (status <? 300) then Some data else None
  | NetworkError => None
  end.

End Axios.

(** ** The profile editor, variant with normalising schemas
    (src/unnamed/part_000) *)

Module Portfolio.

Definition FluencyEnum : list string :=
  ["Beginner"; "Intermediate"; "Advanced"; "Expert"].

Definition CourseEnum : list string :=
  ["B.Sc.(Hons.) Comp. Appls."; "MCA"; "M.Sc. Cyber Security"].

Definition courseSchema : Zod.Schema string string := Zod.enum_ CourseEnum.

Record ProgLang : Type := mkProgLang
  { lang_name : string; lang_fluency : string }.

Record Skill : Type := mkSkill
  { skill_name : string; skill_fluency : string }.

Record Project : Type := mkProject
  { projectName : string;
    projectDescription : string;
    technologiesUsed : string;
    projectLink : option string;
    projectDuration : string }.

Record Achievement : Type := mkAchievement { ach_name : string }.

(** The document the form holds, and (after parsing) hands to [onSubmit]. *)
Record FormData : Type := mkFormData
  { profilePicture : option Dom.File;
    name : string;
    title : string;
    about : string;
    dob : string;
    address : string;
    enrollNo : string;
    facultyNo : string;
    course : option string;
    semester : string;
    progLangs : list ProgLang;
    skills : list Skill;
    projects : list Project;
    achievements : list Achievement;
    email : string;
    phone : string;
    github : string;
    linkedin : string }.

(** [/^[A-Z]{2}[0-9]{4}$/] *)
Definition enrollNo_re : Regex.re :=
  Regex.Seq (Regex.rep 2 Regex.AZ) (Regex.rep 4 Regex.digit).

(** [/^[0-9]{2}[A-Z]{5}[0-9]{3}$/] *)
Definition facultyNo_re : Regex.re :=
  Regex.Seq (Regex.rep 2 Regex.digit)
    (Regex.Seq (Regex.rep 5 Regex.AZ) (Regex.rep 3 Regex.digit)).

(** [/^(\+?\d{1,3}[- ]?)?\d{10}$/] *)
Definition phone_re : Regex.re :=
  Regex.Seq
    (Regex.opt
       (Regex.Seq (Regex.opt (Regex.Chr "+"))
          (Regex.Seq (Regex.rep_range 1 3 Regex.digit)
             (Regex.opt (Regex.Cls [("-", "-"); (" ", " ")]%char)))))
    (Regex.rep 10 Regex.digit).

Section Schemas.
Context `{Zod.Formats} `{Js.Casing}.

Definition progLangSchema : Zod.Schema ProgLang ProgLang := λ p x,
  Zod.pure mkProgLang
  <*> Zod.field "name" (Zod.string_ [Zod.nonempty None]) p (lang_name x)
  <*> Zod.field "fluency" (Zod.enum_ FluencyEnum) p (lang_fluency x).

Definition skillsSchema : Zod.Schema Skill Skill := λ p x,
  Zod.pure mkSkill
  <*> Zod.field "name" (Zod.string_ []) p (skill_name x)
  <*> Zod.field "fluency" (Zod.enum_ FluencyEnum) p (skill_fluency x).

Definition projectSchema : Zod.Schema Project Project := λ p x,
  Zod.pure mkProject
  <*> Zod.field "projectName"
        (Zod.string_
           [Zod.min 2 (Some "Project name must be at least 2 characters.")])
        p (projectName x)
  <*> Zod.field "projectDescription"
        (Zod.string_
           [Zod.min 10
              (Some "Project description must be at least 10 characters.")])
        p (projectDescription x)
  <*> Zod.field "technologiesUsed" (Zod.string_ []) p (technologiesUsed x)
  <*> Zod.field "projectLink"
        (Zod.optional (Zod.string_ [Zod.url None])) p (projectLink x)
  <*> Zod.field "projectDuration"
        (Zod.string_
           [Zod.min 2 (Some "Project duration must be at least 2 characters.")])
        p (projectDuration x).

Definition achievementSchema : Zod.Schema Achievement Achievement := λ p x,
  Zod.pure mkAchievement
  <*> Zod.field "name"
        (Zod.string_ [Zod.nonempty (Some "This field is required")])
        p (ach_name x).

Definition enrollNoSchema : Zod.Schema string string :=
  Zod.refine (Regex.test enrollNo_re) (Some "Invalid Enrollment number")
    (Zod.transform Js.toUpperCase (Zod.string_ [])).

Definition facultyNoSchema : Zod.Schema string string :=
  Zod.refine (Regex.test facultyNo_re) (Some "Invalid Faculty number")
    (Zod.transform Js.toUpperCase (Zod.string_ [])).

Definition FormSchema : Zod.Schema FormData FormData := λ p d,
  Zod.pure mkFormData
  <*> Zod.field "profilePicture" (Zod.optional Zod.instanceof)
        p (profilePicture d)
  <*> Zod.field "name"
        (Zod.string_ [Zod.nonempty (Some "This field is required")])
        p (name d)
  <*> Zod.field "title"
        (Zod.string_ [Zod.nonempty (Some "This field is required")])
        p (title d)
  <*> Zod.field "about"
        (Zod.string_ [Zod.max 200 (Some "Not more than 200 characters");
                      Zod.nonempty (Some "This field is required")])
        p (about d)
  <*> Zod.field "dob"
        (Zod.string_ [Zod.date (Some "Invalid date");
                      Zod.min 1 (Some "This field is required")])
        p (dob d)
  <*> Zod.field "address"
        (Zod.string_ [Zod.nonempty (Some "This field is required")])
        p (address d)
  <*> Zod.field "enrollNo" enrollNoSchema p (enrollNo d)
  <*> Zod.field "facultyNo" facultyNoSchema p (facultyNo d)
  <*> (Some <$$> Zod.field "course" (Zod.required courseSchema) p (course d))
  <*> Zod.field "semester"
        (Zod.string_ [Zod.nonempty (Some "Semester is Required")])
        p (semester d)
  <*> Zod.field "progLangs" (Zod.array progLangSchema) p (progLangs d)
  <*> Zod.field "skills" (Zod.array skillsSchema) p (skills d)
  <*> Zod.field "projects" (Zod.array projectSchema) p (projects d)
  <*> Zod.field "achievements" (Zod.array achievementSchema)
        p (achievements d)
  <*> Zod.field "email"
        (Zod.string_ [Zod.email None;
                      Zod.nonempty (Some "This field is required")])
        p (email d)
  <*> Zod.field "phone"
        (Zod.refine (Regex.test phone_re) (Some "Invalid phone number")
           (Zod.string_ []))
        p (phone d)
  <*> Zod.field "github" (Zod.string_ [Zod.url None]) p (github d)
  <*> Zod.field "linkedin" (Zod.string_ [Zod.url None]) p (linkedin d).

(** [onSubmit]: the validated document is logged. *)
Inductive Effect : Type := ConsoleLog (data : FormData).

Definition onSubmit (data : FormData) : list Effect := [ConsoleLog data].

(** [form.handleSubmit(onSubmit)] with [resolver: zodResolver(FormSchema)] *)
Definition submit : FormData → Rhf.Outcome Effect :=
  Rhf.handleSubmit FormSchema onSubmit.

End Schemas.

(** The document with another text in the [about] field. *)
Definition with_about (a : string) (d : FormData) : FormData :=
  mkFormData (profilePicture d) (name d) (title d) a (dob d) (address d)
    (enrollNo d) (facultyNo d) (course d) (semester d) (progLangs d)
    (skills d) (projects d) (achievements d) (email d) (phone d) (github d)
    (linkedin d).

(** The document with another course selected, and nothing else changed. *)
Definition with_course (c : option string) (d : FormData) : FormData :=
  mkFormData (profilePicture d) (name d) (title d) (about d) (dob d)
    (address d) (enrollNo d) (facultyNo d) c (semester d) (progLangs d)
    (skills d) (projects d) (achievements d) (email d) (phone d) (github d)
    (linkedin d).

(** The document as the two [.transform] steps leave it. *)
Definition normalized `{Js.Casing} (d : FormData) : FormData :=
  mkFormData (profilePicture d) (name d) (title d) (about d) (dob d)
    (address d) (Js.toUpperCase (enrollNo d)) (Js.toUpperCase (facultyNo d))
    (course d) (semester d) (progLangs d) (skills d) (projects d)
    (achievements d) (email d) (phone d) (github d) (linkedin d).

(** *** The four sub-list managers *)

(** A row of one of the repeatable sections. *)
Inductive Entry : Type :=
  | LangEntry (e : ProgLang)
  | SkillEntry (e : Skill)
  | ProjectEntry (e : Project)
  | AchievementEntry (e : Achievement).

Definition languageFields := Rhf.fields (V:=Entry) "progLangs".
Definition appendLanguage (e : ProgLang) := Rhf.append "progLangs" (LangEntry e).
Definition removeLanguage := Rhf.remove (V:=Entry) "progLangs".

Definition projectFields := Rhf.fields (V:=Entry) "projects".
Definition appendProject (e : Project) := Rhf.append "projects" (ProjectEntry e).
Definition removeProject := Rhf.remove (V:=Entry) "projects".

Definition skillsFields := Rhf.fields (V:=Entry) "skills".
Definition appendsSkill (e : Skill) := Rhf.append "skills" (SkillEntry e).
Definition removeSkill := Rhf.remove (V:=Entry) "skills".

Definition achievementsFields := Rhf.fields (V:=Entry) "achievements".
Definition appendAchievement (e : Achievement) :=
  Rhf.append "achievements" (AchievementEntry e).
Definition removeAchievement := Rhf.remove (V:=Entry) "achievements".

(** The repeatable sections of the page, each with the list it renders,
    its add button (which appends the section's default entry) and its
    per-row delete button. *)
Inductive Sublist : Type := Languages | Skills | Projects | Achievements.

Definition rows (s : Sublist) : Rhf.Control Entry → list (Rhf.Row Entry) :=
  match s with
  | Languages => languageFields
  | Skills => skillsFields
  | Projects => projectFields
  | Achievements => achievementsFields
  end.

Definition defaultEntry (s : Sublist) : Entry :=
  match s with
  | Languages => LangEntry (mkProgLang "" "Beginner")
  | Skills => SkillEntry (mkSkill "" "Beginner")
  | Projects => ProjectEntry (mkProject "" "" "" (Some "") "")
  | Achievements => AchievementEntry (mkAchievement "")
  end.

Definition add (s : Sublist) : Rhf.Control Entry → Rhf.Control Entry :=
  match s with
  | Languages => appendLanguage (mkProgLang "" "Beginner")
  | Skills => appendsSkill (mkSkill "" "Beginner")
  | Projects => appendProject (mkProject "" "" "" (Some "") "")
  | Achievements => appendAchievement (mkAchievement "")
  end.

Definition removeAt (s : Sublist) (index : nat)
  : Rhf.Control Entry → Rhf.Control Entry :=
  match s with
  | Languages => removeLanguage index
  | Skills => removeSkill index
  | Projects => removeProject index
  | Achievements => removeAchievement index
  end.

End Portfolio.

(** ** The profile editor, variant with the semester pattern and the
    profile-picture constraints (src/src/components/StudentPortfolioForm.tsx) *)

Module PortfolioStrict.

Definition FluencyEnum : list string :=
  ["Beginner"; "Intermediate"; "Advanced"; "Expert"].

Record ProgLang : Type := mkProgLang
  { lang_name : string; lang_fluency : string }.

Record Skill : Type := mkSkill
  { skill_name : string; skill_fluency : string }.

Record Project : Type := mkProject
  { projectName : string;
    projectDescription : string;
    technologiesUsed : list string;
    projectLink : option string;
    projectDuration : string }.

Definition maxSize : N := 2 * 1024 * 1024.

Definition fileFormat : list string := ["image/jpeg"; "image/png"].

(** [value instanceof FileList] *)
Definition as_FileList (v : Dom.Value) : option (list Dom.File) :=
  match v with
  | Dom.FileList files => Some files
  | Dom.Undefined | Dom.Object _ => None
  end.

(** [files[0]?.size <= maxSize]: with no first file the comparison is
    [undefined <= maxSize], which is false. *)
Definition size_ok (files : list Dom.File) : bool :=
  match files !! 0 with
  | Some f => (Dom.size f <=? maxSize)%N
  | None => false
  end.

(** [fileFormat.includes(files[0]?.type)] *)
Definition type_ok (files : list Dom.File) : bool :=
  match files !! 0 with
  | Some f => Js.includes fileFormat (Dom.type f)
  | None => false
  end.

Definition profilePictureSchema : Zod.Schema Dom.Value (list Dom.File) :=
  Zod.object_
    (Zod.prop "profilePicture"
       (Zod.refine type_ok
          (Some "Invalid file type. Only JPEG and PNG are allowed.")
          (Zod.refine size_ok (Some "File size must be less than 2MB.")
             (Zod.refine (λ files, 0 <? length files)
                (Some "Profile picture is required.")
                (Zod.custom as_FileList (Some "Please upload a file.")))))).

(** [/^[A-Z]{2}[0-9]{4}$/] *)
Definition enrollNo_re : Regex.re :=
  Regex.Seq (Regex.rep 2 Regex.AZ) (Regex.rep 4 Regex.digit).

(** [/^[0-9]{2}[A-Z]{5}[0-9]{3}$/] *)
Definition facultyNo_re : Regex.re :=
  Regex.Seq (Regex.rep 2 Regex.digit)
    (Regex.Seq (Regex.rep 5 Regex.AZ) (Regex.rep 3 Regex.digit)).

(** [/^(?:(B\.Sc\.\(Hons\.\) Comp\. Appls\.: (I|II|III|IV|V|VI|VII|VIII))|(MCA|M\.Sc\. Cyber Security: (I|II|III|IV)))$/]

    The outer alternation has two groups.  Inside the second group the bar
    separates [MCA] from [M\.Sc\. Cyber Security: (I|II|III|IV)]: the
    colon and the numerals belong to the right-hand alternative only. *)
Definition semester_re : Regex.re :=
  Regex.Alt
    (Regex.Seq (Regex.lit "B.Sc.(Hons.) Comp. Appls.: ")
       (Regex.alts (Regex.lit <$>
          ["I"; "II"; "III"; "IV"; "V"; "VI"; "VII"; "VIII"])))
    (Regex.Alt
       (Regex.lit "MCA")
       (Regex.Seq (Regex.lit "M.Sc. Cyber Security: ")
          (Regex.alts (Regex.lit <$> ["I"; "II"; "III"; "IV"])))).

(** [/^\d{10}$/] *)
Definition phone_re : Regex.re := Regex.rep 10 Regex.digit.

(** What the form holds.  [defaultValues] leaves [profilePicture], [dob],
    [address] and [course] undefined. *)
Record FormValues : Type := mkFormValues
  { profilePicture : Dom.Value;
    name : string;
    title : string;
    about : string;
    dob : option string;
    address : option string;
    enrollNo : string;
    facultyNo : string;
    course : option string;
    semester : string;
    progLangs : list ProgLang;
    skills : list Skill;
    projects : list Project;
    achievements : list string;
    email : string;
    phone : string;
    github : string;
    linkedin : string }.

(** [z.infer<typeof FormSchema>] *)
Record FormData : Type := mkFormData
  { out_profilePicture : list Dom.File;
    out_name : string;
    out_title : string;
    out_about : string;
    out_dob : string;
    out_address : string;
    out_enrollNo : string;
    out_facultyNo : string;
    out_course : string;
    out_semester : string;
    out_progLangs : list ProgLang;
    out_skills : list Skill;
    out_projects : list Project;
    out_achievements : list string;
    out_email : string;
    out_phone : string;
    out_github : string;
    out_linkedin : string }.

Section Schemas.
Context `{Zod.Formats}.

Definition progLangSchema : Zod.Schema ProgLang ProgLang := λ p x,
  Zod.pure mkProgLang
  <*> Zod.field "name" (Zod.string_ [Zod.nonempty None]) p (lang_name x)
  <*> Zod.field "fluency" (Zod.enum_ FluencyEnum) p (lang_fluency x).

Definition skillsSchema : Zod.Schema Skill Skill := λ p x,
  Zod.pure mkSkill
  <*> Zod.field "name" (Zod.string_ []) p (skill_name x)
  <*> Zod.field "fluency" (Zod.enum_ FluencyEnum) p (skill_fluency x).

Definition projectSchema : Zod.Schema Project Project := λ p x,
  Zod.pure mkProject
  <*> Zod.field "projectName"
        (Zod.string_
           [Zod.min 2 (Some "Project name must be at least 2 characters.")])
        p (projectName x)
  <*> Zod.field "projectDescription"
        (Zod.string_
           [Zod.min 10
              (Some "Project description must be at least 10 characters.")])
        p (projectDescription x)
  <*> Zod.field "technologiesUsed" (Zod.array (Zod.string_ []))
        p (technologiesUsed x)
  <*> Zod.field "projectLink"
        (Zod.optional (Zod.string_ [Zod.url None])) p (projectLink x)
  <*> Zod.field "projectDuration"
        (Zod.string_
           [Zod.min 2 (Some "Project duration must be at least 2 characters.")])
        p (projectDuration x).

Definition courseSchema : Zod.Schema string string :=
  Zod.refine (λ val, negb (bool_decide (val = "SELECT")))
    (Some "You must select a valid course")
    (Zod.enum_
       ["SELECT"; "B.Sc.(Hons.) Comp. Appls."; "MCA"; "M.Sc. Cyber Security"]).

Definition semesterSchema : Zod.Schema string string :=
  Zod.string_
    [Zod.regex semester_re (Some "Invalid semester for the selected course");
     Zod.nonempty (Some "Semester is Required")].

Definition enrollNoSchema : Zod.Schema string string :=
  Zod.string_
    [Zod.regex enrollNo_re (Some "Invalid Enrollment number");
     Zod.nonempty (Some "This field is required")].

Definition facultyNoSchema : Zod.Schema string string :=
  Zod.string_
    [Zod.regex facultyNo_re (Some "Invalid Faculty number");
     Zod.nonempty (Some "This field is required")].

Definition FormSchema : Zod.Schema FormValues FormData := λ p d,
  Zod.pure mkFormData
  <*> Zod.field "profilePicture" profilePictureSchema p (profilePicture d)
  <*> Zod.field "name"
        (Zod.string_ [Zod.nonempty (Some "This field is required")])
        p (name d)
  <*> Zod.field "title"
        (Zod.string_ [Zod.nonempty (Some "This field is required")])
        p (title d)
  <*> Zod.field "about"
        (Zod.string_ [Zod.max 200 (Some "Not more than 200 characters");
                      Zod.nonempty (Some "This field is required")])
        p (about d)
  <*> Zod.field "dob"
        (Zod.required
           (Zod.string_ [Zod.date (Some "Invalid date");
                         Zod.nonempty (Some "This field is required")]))
        p (dob d)
  <*> Zod.field "address"
        (Zod.required
           (Zod.string_ [Zod.nonempty (Some "This field is required")]))
        p (address d)
  <*> Zod.field "enrollNo" enrollNoSchema p (enrollNo d)
  <*> Zod.field "facultyNo" facultyNoSchema p (facultyNo d)
  <*> Zod.field "course" (Zod.required courseSchema) p (course d)
  <*> Zod.field "semester" semesterSchema p (semester d)
  <*> Zod.field "progLangs" (Zod.array progLangSchema) p (progLangs d)
  <*> Zod.field "skills" (Zod.array skillsSchema) p (skills d)
  <*> Zod.field "projects" (Zod.array projectSchema) p (projects d)
  <*> Zod.field "achievements"
        (Zod.array
           (Zod.string_ [Zod.max 50 (Some "Not more than 50 characters");
                         Zod.nonempty (Some "This field is required")]))
        p (achievements d)
  <*> Zod.field "email"
        (Zod.string_ [Zod.email None;
                      Zod.nonempty (Some "This field is required")])
        p (email d)
  <*> Zod.field "phone"
        (Zod.string_ [Zod.regex phone_re None;
                      Zod.nonempty (Some "This field is required")])
        p (phone d)
  <*> Zod.field "github" (Zod.string_ [Zod.url None]) p (github d)
  <*> Zod.field "linkedin" (Zod.string_ [Zod.url None]) p (linkedin d).

(** Does the [semester] field pass when the whole document is validated:
    no issue is reported at the path [semester]. *)
Definition semester_passes (d : FormValues) : bool :=
  bool_decide (Zod.issues_at [Zod.Key "semester"] (FormSchema [] d) = []).

Inductive Effect : Type := ConsoleLog (data : FormData).

Definition onSubmit (data : FormData) : list Effect := [ConsoleLog data].

Definition submit : FormValues → Rhf.Outcome Effect :=
  Rhf.handleSubmit FormSchema onSubmit.

End Schemas.

(** *** The sub-list managers, with the field names they are bound to

    Five managers are created; three of them on the name of the first.
    Managers that share a name keep separate [fields] states, so what each
    of them shows is not a function of the form alone; modelled is what
    their [append] and [remove] write to the form. *)

Inductive Entry : Type :=
  | LangEntry (e : ProgLang)
  | SkillEntry (e : Skill)
  | ProjectEntry (e : Project).

Definition appendLanguage (e : ProgLang) :=
  Rhf.appendValue "progLangs" (LangEntry e).
Definition removeLanguage := Rhf.removeValue (V:=Entry) "progLangs".

Definition appendProject (e : Project) :=
  Rhf.appendValue "project" (ProjectEntry e).
Definition removeProject := Rhf.removeValue (V:=Entry) "project".

Definition appendsSkill (e : Skill) :=
  Rhf.appendValue "progLangs" (SkillEntry e).
Definition removeSkill := Rhf.removeValue (V:=Entry) "progLangs".

Definition appendTech := Rhf.appendValue (V:=Entry) "progLangs".
Definition removeTech := Rhf.removeValue (V:=Entry) "progLangs".

Definition appendAchievement := Rhf.appendValue (V:=Entry) "progLangs".
Definition removeAchievement := Rhf.removeValue (V:=Entry) "progLangs".

(** The document with another course selected, and nothing else changed. *)
Definition with_course (c : option string) (d : FormValues) : FormValues :=
  mkFormValues (profilePicture d) (name d) (title d) (about d) (dob d)
    (address d) (enrollNo d) (facultyNo d) c (semester d) (progLangs d)
    (skills d) (projects d) (achievements d) (email d) (phone d) (github d)
    (linkedin d).

(** The document with another value in the picture field. *)
Definition with_profilePicture (v : Dom.Value) (d : FormValues) : FormValues :=
  mkFormValues v (name d) (title d) (about d) (dob d) (address d)
    (enrollNo d) (facultyNo d) (course d) (semester d) (progLangs d)
    (skills d) (projects d) (achievements d) (email d) (phone d) (github d)
    (linkedin d).

(** The document with another text in the semester field. *)
Definition with_semester (s : string) (d : FormValues) : FormValues :=
  mkFormValues (profilePicture d) (name d) (title d) (about d) (dob d)
    (address d) (enrollNo d) (facultyNo d) (course d) s (progLangs d)
    (skills d) (projects d) (achievements d) (email d) (phone d) (github d)
    (linkedin d).

End PortfolioStrict.

(** ** The login page (src/unnamed/part_001) *)

Module Login.

Record FormValues : Type := mkFormValues
  { email : string; password : string }.

(** [/^[A-Z]{2}[0-9]{4}$/] *)
Definition email_re : Regex.re :=
  Regex.Seq (Regex.rep 2 Regex.AZ) (Regex.rep 4 Regex.digit).

Section Schemas.
Context `{Js.Casing}.

Definition emailSchema : Zod.Schema string string :=
  Zod.refine (Regex.test email_re) (Some "Invalid Enrollment number")
    (Zod.transform Js.toUpperCase (Zod.string_ [])).

Definition formSchema : Zod.Schema FormValues FormValues := λ p d,
  Zod.pure mkFormValues
  <*> Zod.field "email" emailSchema p (email d)
  <*> Zod.field "password"
        (Zod.string_
           [Zod.min 6 (Some "Password must be atleast of 6 characters")])
        p (password d).

(** What the submit handler does to the outside world, in order. *)
Inductive Effect : Type :=
  | Post (url : string) (body : FormValues) (withCredentials : bool)
  | LogResponse (data : string)
  | Navigate (to : string)
  | Alert (text : string)
  | LogError (label : string)
  | LogData (data : FormValues).

Definition endpoint : string := "http://localhost:3000/api/v1/users/login".

(** [onSubmit]: one awaited POST inside [try]; what follows the [await]
    runs only when the promise resolves, the [catch] block when it rejects;
    the final log runs either way.  [server] is the reply the request
    gets. *)
Definition onSubmit (server : string → FormValues → Axios.Reply)
    (data : FormValues) : list Effect :=
  Post endpoint data true
  :: match Axios.resolves (server endpoint data) with
     | Some body => [LogResponse body; Navigate "/"; Alert "Login successful"]
     | None =>
         [Alert "Invalid credentials or something went wrong";
          LogError "Error logging in:"]
     end
  ++ [LogData data].

Definition submit (server : string → FormValues → Axios.Reply)
  : FormValues → Rhf.Outcome Effect :=
  Rhf.handleSubmit formSchema (onSubmit server).

End Schemas.

Definition is_post (e : Effect) : bool :=
  match e with Post _ _ _ => true | _ => false end.

Definition is_navigate (e : Effect) : bool :=
  match e with Navigate _ => true | _ => false end.

End Login.

(** ** Measures of a pattern

    The shortest and the longest text a pattern can match, and whether two
    characters are told apart by some leaf of the pattern. *)

Module RegexBounds.
Import Regex.

Fixpoint min_len (r : re) : option nat :=
  match r with
  | Fail => None
  | Eps => Some 0
  | Chr _ | Cls _ => Some 1
  | Seq r1 r2 =>
      match min_len r1, min_len r2 with
      | Some m, Some n => Some (m + n)
      | _, _ => None
      end
  | Alt r1 r2 =>
      match min_len r1, min_len r2 with
      | Some m, Some n => Some (m `min` n)
      | Some m, None => Some m
      | None, o => o
      end
  end.

Fixpoint max_len (r : re) : nat :=
  match r with
  | Fail | Eps => 0
  | Chr _ | Cls _ => 1
  | Seq r1 r2 => max_len r1 + max_len r2
  | Alt r1 r2 => max_len r1 `max` max_len r2
  end.

(** No leaf of [r] holds one of [c], [c'] without the other. *)
Fixpoint alike (r : re) (c c' : ascii) : bool :=
  match r with
  | Fail | Eps => true
  | Chr a => bool_decide (bool_decide (c = a) = bool_decide (c' = a))
  | Cls rs => bool_decide (in_class rs c = in_class rs c')
  | Seq r1 r2 | Alt r1 r2 => alike r1 c c' && alike r2 c c'
  end.

(** [0-9] *)
Definition is_digit (c : ascii) : bool := Js.between "0" "9" c.

(** The text of [n] zeros. *)
Fixpoint zeros (n : nat) : string :=
  match n with
  | O => EmptyString
  | S n' => String "0" (zeros n')
  end.

End RegexBounds.

(** ** Texts described unit by unit

    A shape is a list of tests, one for each unit of the text. *)

Module Shape.

(** [A-Z] *)
Definition is_capital (c : ascii) : bool := Js.between "A" "Z" c.

(** A letter of either case. *)
Definition is_letter (c : ascii) : bool :=
  Js.between "A" "Z" c || Js.between "a" "z" c.

Definition is_digit (c : ascii) : bool := RegexBounds.is_digit c.

(** The text has as many units as there are tests, and each unit passes
    the test at its place. *)
Fixpoint fits (ps : list (ascii → bool)) (cs : list ascii) : bool :=
  match ps, cs with
  | [], [] => true
  | p :: ps', c :: cs' => p c && fits ps' cs'
  | _, _ => false
  end.

(** Two capitals and four digits; two letters and four digits. *)
Definition enrollNo : list (ascii → bool) :=
  [is_capital; is_capital; is_digit; is_digit; is_digit; is_digit].

Definition enrollNo_typed : list (ascii → bool) :=
  [is_letter; is_letter; is_digit; is_digit; is_digit; is_digit].

(** Two digits, five capitals and three digits; the same with letters. *)
Definition facultyNo : list (ascii → bool) :=
  [is_digit; is_digit; is_capital; is_capital; is_capital; is_capital;
   is_capital; is_digit; is_digit; is_digit].

Definition facultyNo_typed : list (ascii → bool) :=
  [is_digit; is_digit; is_letter; is_letter; is_letter; is_letter;
   is_letter; is_digit; is_digit; is_digit].

(** The tests of a pattern that is a sequence of single units. *)
Fixpoint classes (r : Regex.re) : option (list (ascii → bool)) :=
  match r with
  | Regex.Eps => Some []
  | Regex.Chr c => Some [λ x, bool_decide (x = c)]
  | Regex.Cls rs => Some [Regex.in_class rs]
  | Regex.Seq r1 r2 =>
      match classes r1, classes r2 with
      | Some ps, Some qs => Some (ps ++ qs)
      | _, _ => None
      end
  | Regex.Fail | Regex.Alt _ _ => None
  end.

End Shape.

(** ** The picture preview of the profile editor
    (src/unnamed/part_000, the [preview] state and the two handlers of the
    picture field) *)

Module Preview.

(** The document's store of object URLs: [URL.createObjectURL] registers
    the file under a URL not used before and returns it; an entry stays
    until [URL.revokeObjectURL] is called with its URL. *)
Record BlobStore : Type := mkBlobStore
  { blobs : gmap nat Dom.File; nextUrl : nat }.

Definition createObjectURL (file : Dom.File) (s : BlobStore)
  : nat * BlobStore :=
  (nextUrl s, mkBlobStore (<[nextUrl s := file]> (blobs s)) (S (nextUrl s))).

(** The form value [profilePicture], the component state [preview] and
    the URL store. *)
Record State : Type := mkState
  { profilePicture : option Dom.File;
    preview : option nat;
    store : BlobStore }.

(** [useState(null)], [defaultValues.profilePicture = undefined] *)
Definition initial : State := mkState None None (mkBlobStore ∅ 0).

(** [onChange] of the file input: with a first file, the form value is set
    and a new object URL becomes the preview; without one, nothing is
    done. *)
Definition onChange (files : list Dom.File) (st : State) : State :=
  match files !! 0 with
  | Some file =>
      let '(url, s) := createObjectURL file (store st) in
      mkState (Some file) (Some url) s
  | None => st
  end.

(** [onClick] of the remove button *)
Definition onRemove (st : State) : State := mkState None None (store st).

Inductive Event : Type :=
  | Change (files : list Dom.File)
  | ClickRemove.

(** The remove button is rendered only while [preview] is set. *)
Definition handle (st : State) (ev : Event) : State :=
  match ev with
  | Change files => onChange files st
  | ClickRemove =>
      match preview st with
      | Some _ => onRemove st
      | None => st
      end
  end.

Definition run (evs : list Event) (st : State) : State :=
  foldl handle st evs.

(** The selections that carried a file. *)
Definition selections (evs : list Event) : list Dom.File :=
  omap (λ ev, match ev with Change files => files !! 0 | ClickRemove => None end)
    evs.

(** The preview shows the picture the form holds: both are unset, or the
    preview is an object URL registered for that picture. *)
Definition in_sync (st : State) : Prop :=
  match preview st with
  | Some url =>
      ∃ file, profilePicture st = Some file
              ∧ blobs (store st) !! url = Some file
  | None => profilePicture st = None
  end.

(** Every registered URL was handed out before. *)
Definition fresh (s : BlobStore) : Prop :=
  ∀ url, is_Some (blobs s !! url) → url < nextUrl s.

End Preview.

(** ** Sample inputs

    Concrete documents on which the statements below are exercised.  The
    three format checks are library code; to run a schema on a sample they
    are given stand-ins: a date is four, two and two digits with dashes, an
    address has text on both sides of its one at-sign, a URL starts with
    its scheme.  The upper-casing of the runtime is given one too. *)

Module Samples.

Definition date_shape : Regex.re :=
  Regex.Seq (Regex.rep 4 Regex.digit)
    (Regex.Seq (Regex.Chr "-")
       (Regex.Seq (Regex.rep 2 Regex.digit)
          (Regex.Seq (Regex.Chr "-") (Regex.rep 2 Regex.digit)))).

Definition email_shape (s : string) : bool :=
  let cs := Js.chars s in
  bool_decide (length (filter (λ c, c = "@"%char) cs) = 1)
  && negb (bool_decide (head cs = Some "@"%char))
  && negb (bool_decide (last cs = Some "@"%char)).

Definition url_shape (s : string) : bool :=
  String.prefix "https://" s || String.prefix "http://" s.

Definition formats : Zod.Formats :=
  Zod.mkFormats (Regex.test date_shape) email_shape url_shape.

(** Upper-casing, for the samples: the case conversion of the units below
    256.  The letters [a-z] and the accented small letters (224 to 254,
    without the division sign 247) have their capital 32 places below;
    sharp s (223) becomes [SS]; every other unit stays.  (The capitals of
    181 and 255 are units above 255; these two are left as they are.) *)
Definition capital (c : ascii) : string :=
  if bool_decide (c = "223"%char) then "SS"
  else if Js.between "a" "z" c
          || Js.between "224" "254" c && negb (bool_decide (c = "247"%char))
       then String (ascii_of_N (Js.code c - 32)) EmptyString
       else String c EmptyString.

Fixpoint upper (s : string) : string :=
  match s with
  | EmptyString => EmptyString
  | String c s' => capital c +:+ upper s'
  end.

Lemma upper_app (s t : string) : upper (s +:+ t) = upper s +:+ upper t.
Proof.
  induction s as [|c s IH]; [done|].
  change (String c s +:+ t) with (String c (s +:+ t)). simpl.
  rewrite IH. generalize (capital c) as u. intros u.
  induction u as [|x u IHu]; [done|].
  change (String x u +:+ upper s +:+ upper t)
    with (String x (u +:+ upper s +:+ upper t)).
  by rewrite IHu.
Qed.

Lemma upper_ascii (s1 : string) (c : ascii) (s2 : string) :
  Js.is_ascii c = true →
  upper (s1 +:+ String c s2)
  = upper s1 +:+ String (Js.upper_char c) (upper s2).
Proof.
  intros Hc. rewrite upper_app. f_equal. simpl.
  assert (capital c = String (Js.upper_char c) EmptyString) as ->; [|done].
  revert Hc. destruct c as [[] [] [] [] [] [] [] []]; vm_compute; congruence.
Qed.

Lemma upper_twice (s : string) : upper (upper s) = upper s.
Proof.
  induction s as [|c s IH]; [done|]. simpl. rewrite upper_app, IH. f_equal.
  destruct c as [[] [] [] [] [] [] [] []]; reflexivity.
Qed.

Definition casing : Js.Casing :=
  Js.mkCasing upper eq_refl upper_ascii upper_twice.

(** A filled-in profile: an MCA student whose semester field reads
    [MCA: V]. *)
Definition profile : Portfolio.FormData :=
  Portfolio.mkFormData None "Asha Rao" "Student developer"
    "I build small web tools." "2004-05-17" "Aligarh" "gk1234" "21cobea123"
    (Some "MCA") "MCA: V"
    [Portfolio.mkProgLang "TypeScript" "Advanced"]
    [Portfolio.mkSkill "Testing" "Intermediate"]
    [Portfolio.mkProject "Club site" "The web site of the student club."
       "React" (Some "https://example.org/club") "3 months"]
    [Portfolio.mkAchievement "Hackathon finalist"]
    "asha@example.org" "+91 9876543210" "https://github.com/asha"
    "https://linkedin.com/in/asha".

(** The same profile in the other variant's form, with a picture chosen in
    the file input. *)
Definition strict_profile : PortfolioStrict.FormValues :=
  PortfolioStrict.mkFormValues
    (Dom.FileList [Dom.mkFile "me.png" (1024 * 1024) "image/png"])
    "Asha Rao" "Student developer" "I build small web tools."
    (Some "2004-05-17") (Some "Aligarh") "GK1234" "21COBEA123"
    (Some "MCA") "MCA: II" [] [] [] [] "asha@example.org" "9876543210"
    "https://github.com/asha" "https://linkedin.com/in/asha".

(** A form with three language rows and one skill row. *)
Definition control : Rhf.Control Portfolio.Entry :=
  Portfolio.add Portfolio.Skills
    (Portfolio.add Portfolio.Languages
       (Portfolio.add Portfolio.Languages
          (Portfolio.add Portfolio.Languages (Rhf.mkControl ∅ 0)))).

Definition jpeg_3MB : Dom.File :=
  Dom.mkFile "big.jpg" (3 * 1024 * 1024) "image/jpeg".

Definition png_1MB : Dom.File :=
  Dom.mkFile "me.png" (1024 * 1024) "image/png".

Definition gif_1KB : Dom.File := Dom.mkFile "anim.gif" 1024 "image/gif".

(** A server that answers every request with one fixed reply. *)
Definition server (r : Axios.Reply) : string → Login.FormValues → Axios.Reply :=
  λ _ _, r.

End Samples.

(** ** The dependent-semester rule as the specification words it

    The semester names the selected course, then a colon and a Roman
    numeral; for MCA the numerals are I to IV.  (The numerals of the other
    two courses are those the semester pattern of the source lists.) *)

Module SpecWords.

Definition numerals (course : string) : list string :=
  if bool_decide (course = "B.Sc.(Hons.) Comp. Appls.")
  then ["I"; "II"; "III"; "IV"; "V"; "VI"; "VII"; "VIII"]
  else ["I"; "II"; "III"; "IV"].

Definition semester_fits_course (course semester : string) : bool :=
  Regex.test
    (Regex.Seq (Regex.lit course)
       (Regex.Seq (Regex.lit ": ")
          (Regex.alts (Regex.lit <$> numerals course))))
    semester.

End SpecWords.

(** More sample inputs. *)

Module MoreSamples.

(** Two pictures chosen one after the other, then the remove button. *)
Definition picture_session : list Preview.Event :=
  [Preview.Change [Samples.png_1MB]; Preview.Change [Samples.jpeg_3MB];
   Preview.ClickRemove].

(** The sample profile with the name of its language row left empty. *)
Definition profile_with_blank_language : Portfolio.FormData :=
  Portfolio.mkFormData None "Asha Rao" "Student developer"
    "I build small web tools." "2004-05-17" "Aligarh" "gk1234" "21cobea123"
    (Some "MCA") "MCA: V"
    [Portfolio.mkProgLang "TypeScript" "Advanced";
     Portfolio.mkProgLang "" "Beginner"]
    [Portfolio.mkSkill "" "Beginner"]
    [Portfolio.mkProject "Club site" "The web site of the student club."
       "React" (Some "") "3 months"]
    [Portfolio.mkAchievement ""]
    "asha@example.org" "+91 9876543210" "https://github.com/asha"
    "https://linkedin.com/in/asha".

End MoreSamples.

(** * Properties *)

(** Membership in a list that is written out. *)
Ltac elem_of_literal :=
  simpl; repeat first [apply list_elem_of_here | apply list_elem_of_further].

(** ** The matcher decides the language of the pattern *)

Module RegexFacts.
Import Regex.

Lemma append_nil_l (s : string) : EmptyString +:+ s = s.
Proof. reflexivity. Qed.

Lemma append_cons (c : ascii) (s t : string) :
  String c s +:+ t = String c (s +:+ t).
Proof. reflexivity. Qed.

Lemma append_eq_nil (s t : string) :
  s +:+ t = EmptyString → s = EmptyString ∧ t = EmptyString.
Proof. destruct s; [rewrite append_nil_l; auto | rewrite append_cons; discriminate]. Qed.

Lemma Lang_nil_nullable (r : re) (s : string) :
  Lang r s → s = EmptyString → nullable r = true.
Proof.
  induction 1 as [| | |r1 r2 s1 s2 _ IH1 _ IH2|r1 r2 s _ IH|r1 r2 s _ IH];
    intros Hs; simpl; try discriminate; auto.
  - apply append_eq_nil in Hs as [-> ->]. rewrite IH1, IH2; auto.
  - rewrite IH; auto.
  - rewrite IH; auto using orb_true_r.
Qed.

Lemma nullable_Lang (r : re) : nullable r = true → Lang r EmptyString.
Proof.
  induction r as [| | | |r1 IH1 r2 IH2|r1 IH1 r2 IH2]; simpl; try discriminate.
  - intros _. constructor.
  - intros [H1 H2]%andb_true_iff.
    change EmptyString with (EmptyString +:+ EmptyString). constructor; auto.
  - intros [H1|H2]%orb_true_iff; [apply Lang_alt_l | apply Lang_alt_r]; auto.
Qed.

Lemma deriv_sound (c : ascii) (r : re) :
  ∀ s, Lang (deriv c r) s → Lang r (String c s).
Proof.
  induction r as [| |c'|rs|r1 IH1 r2 IH2|r1 IH1 r2 IH2]; simpl; intros s Hs.
  - inversion Hs.
  - inversion Hs.
  - case_bool_decide; inversion Hs; subst. constructor.
  - destruct (in_class rs c) eqn:Hc; inversion Hs; subst. by constructor.
  - assert (Hseq : ∀ t, Lang (Seq (deriv c r1) r2) t → Lang (Seq r1 r2) (String c t)).
    { intros t Ht. inversion Ht; subst. rewrite <- append_cons. constructor; auto. }
    destruct (nullable r1) eqn:Hn; [|by apply Hseq].
    inversion Hs; subst; [by apply Hseq|].
    rewrite <- (append_nil_l (String c s)). constructor; auto using nullable_Lang.
  - inversion Hs; subst; [apply Lang_alt_l | apply Lang_alt_r]; auto.
Qed.

Lemma deriv_complete (r : re) (w : string) :
  Lang r w → ∀ c s, w = String c s → Lang (deriv c r) s.
Proof.
  induction 1 as [|c'|rs c' Hc|r1 r2 s1 s2 H1 IH1 H2 IH2|r1 r2 s _ IH|r1 r2 s _ IH];
    intros c t Hw; simpl.
  - discriminate.
  - injection Hw as <- <-. rewrite bool_decide_true by done. constructor.
  - injection Hw as <- <-. rewrite Hc. constructor.
  - destruct s1 as [|c1 s1].
    + rewrite append_nil_l in Hw. rewrite (Lang_nil_nullable _ _ H1 eq_refl).
      apply Lang_alt_r. eauto.
    + rewrite append_cons in Hw. injection Hw as <- <-.
      assert (Lang (Seq (deriv c1 r1) r2) (s1 +:+ s2)) by (constructor; eauto).
      destruct (nullable r1); [by apply Lang_alt_l | done].
  - apply Lang_alt_l; eauto.
  - apply Lang_alt_r; eauto.
Qed.

(** [test] accepts exactly the strings of the pattern's language. *)
Lemma test_spec (s : string) : ∀ r, test r s = true ↔ Lang r s.
Proof.
  induction s as [|c s IH]; intros r; simpl.
  - split; [apply nullable_Lang | intros; by eapply Lang_nil_nullable].
  - rewrite IH. split; [apply deriv_sound | intros; by eapply deriv_complete].
Qed.

(** Every character of a matching string occurs in a leaf of the pattern. *)
Lemma Lang_alphabet (r : re) (s : string) :
  Lang r s → ∀ c, c ∈ Js.chars s → alphabet r c = true.
Proof.
  induction 1 as [|c'|rs c' Hc|r1 r2 s1 s2 _ IH1 _ IH2|r1 r2 s _ IH|r1 r2 s _ IH];
    intros c Hin; simpl in *.
  - by apply elem_of_nil in Hin.
  - apply list_elem_of_singleton in Hin as ->. by apply bool_decide_true.
  - by apply list_elem_of_singleton in Hin as ->.
  - assert (Happ : Js.chars (s1 +:+ s2) = Js.chars s1 ++ Js.chars s2).
    { clear. induction s1 as [|a s1 IH]; [done|].
      rewrite append_cons. simpl. by rewrite IH. }
    rewrite Happ in Hin. apply elem_of_app in Hin as [Hin|Hin].
    + rewrite IH1; auto.
    + rewrite IH2; auto using orb_true_r.
  - rewrite IH; auto.
  - rewrite IH; auto using orb_true_r.
Qed.

Lemma test_alphabet (r : re) (s : string) (c : ascii) :
  test r s = true → c ∈ Js.chars s → alphabet r c = true.
Proof. intros Ht%test_spec. by apply Lang_alphabet. Qed.

Lemma all_chars_complete (c : ascii) : c ∈ all_chars.
Proof.
  unfold all_chars. apply list_elem_of_fmap. exists (nat_of_ascii c). split.
  - by rewrite ascii_nat_embedding.
  - apply elem_of_seq. pose proof (nat_ascii_bounded c). lia.
Qed.

(** [words] lists the language. *)
Lemma words_spec (r : re) : ∀ s, Lang r s ↔ s ∈ words r.
Proof.
  induction r as [| |c|rs|r1 IH1 r2 IH2|r1 IH1 r2 IH2]; intros s; simpl.
  - rewrite elem_of_nil. split; [inversion 1|done].
  - rewrite list_elem_of_singleton. split; [by inversion 1|intros ->; constructor].
  - rewrite list_elem_of_singleton. split; [by inversion 1|intros ->; constructor].
  - rewrite list_elem_of_fmap. split.
    + inversion 1; subst. eexists. split; [done|].
      apply list_elem_of_filter. split; [by apply Is_true_true|].
      apply all_chars_complete.
    + intros (c & -> & [Hc _]%list_elem_of_filter).
      constructor. by apply Is_true_true.
  - rewrite list_elem_of_bind. split.
    + inversion 1; subst. eexists. split; [|by apply IH1].
      apply list_elem_of_fmap. eexists. split; [done|]. by apply IH2.
    + intros (s1 & (s2 & -> & H2)%list_elem_of_fmap & H1).
      constructor; [by apply IH1 | by apply IH2].
  - rewrite elem_of_app, <- IH1, <- IH2. split.
    + inversion 1; subst; auto.
    + intros [?|?]; [by apply Lang_alt_l | by apply Lang_alt_r].
Qed.

Lemma test_words (r : re) (s : string) : test r s = true ↔ s ∈ words r.
Proof. by rewrite test_spec, words_spec. Qed.

End RegexFacts.

(** ** Issues stay below the path of the schema that raised them *)

Module ZodFacts.
Import Zod.

Create HintDb scoped discriminated.

Lemma issues_ap {A B} (rf : Parsed (A → B)) (ra : Parsed A) :
  issues (rf <*> ra) = issues rf ++ issues ra.
Proof. reflexivity. Qed.

Lemma issues_pure {A} (a : A) : issues (pure a) = [].
Proof. reflexivity. Qed.

Lemma value_ap {A B} (rf : Parsed (A → B)) (ra : Parsed A) (f : A → B) (a : A) :
  value rf = Some f → value ra = Some a → value (rf <*> ra) = Some (f a).
Proof. unfold ap; simpl. by intros -> ->. Qed.

Lemma run_checks_path (cs : list Check) (p : list Seg) (s : string) :
  Forall (λ i, path i = p) (run_checks cs p s).
Proof.
  induction cs as [|c cs IH]; simpl; [constructor|].
  apply Forall_app; split; [|done].
  destruct (holds c s); repeat constructor.
Qed.

Lemma scoped_string_ (cs : list Check) : scoped (string_ cs).
Proof.
  intros p s. simpl. eapply Forall_impl; [apply run_checks_path|].
  by intros i ->.
Qed.

Lemma scoped_transform {I A B} (f : A → B) (sch : Schema I A) :
  scoped sch → scoped (transform f sch).
Proof.
  intros Hs p x. unfold transform. specialize (Hs p x).
  by destruct (issues (sch p x)).
Qed.

Lemma scoped_refine {I A} (ok : A → bool) (m : option string) (sch : Schema I A) :
  scoped sch → scoped (refine ok m sch).
Proof.
  intros Hs p x. unfold refine. specialize (Hs p x).
  destruct (value (sch p x)) as [v|]; [|done].
  destruct (ok v); [done|]. simpl. apply Forall_app; split; [done|].
  by repeat constructor.
Qed.

Lemma scoped_enum_ (options : list string) : scoped (enum_ options).
Proof.
  intros p s. unfold enum_. destruct (Js.includes options s); simpl;
    by repeat constructor.
Qed.

Lemma scoped_required {I O} (sch : Schema I O) :
  scoped sch → scoped (required sch).
Proof. intros Hs p [i|]; simpl; [apply Hs | by repeat constructor]. Qed.

Lemma scoped_optional {I O} (sch : Schema I O) :
  scoped sch → scoped (optional sch).
Proof. intros Hs p [i|]; simpl; [apply Hs | constructor]. Qed.

Lemma scoped_instanceof {A} : scoped (@instanceof A).
Proof. intros p x. constructor. Qed.

Lemma scoped_custom {I A} (check : I → option A) (m : option string) :
  scoped (custom check m).
Proof.
  intros p x. unfold custom. destruct (check x); simpl; by repeat constructor.
Qed.

Lemma scoped_field {I O} (k : string) (sch : Schema I O) :
  scoped sch → scoped (field k sch).
Proof.
  intros Hs p x. unfold field. eapply Forall_impl; [apply (Hs (p ++ [Key k]))|].
  intros i Hi; simpl in *. by eapply prefix_app_l.
Qed.

Lemma scoped_prop {O} (k : string) (sch : Schema Dom.Value O) :
  scoped sch → scoped (prop k sch).
Proof.
  intros Hs p x. unfold prop. eapply Forall_impl; [apply (Hs (p ++ [Key k]))|].
  intros i Hi; simpl in *. by eapply prefix_app_l.
Qed.

Lemma scoped_object_ {O} (shape : Schema Dom.Value O) :
  scoped shape → scoped (object_ shape).
Proof.
  intros Hs p [|fs|props]; simpl; [by repeat constructor | apply Hs..].
Qed.

Lemma array_issues {I O} (sch : Schema I O) (p : list Seg) (xs : list I) :
  issues (array sch p xs)
  = concat (imap (λ i x, issues (sch (p ++ [Idx i]) x)) xs).
Proof. unfold array; simpl. by rewrite fmap_imap. Qed.

Lemma scoped_array {I O} (sch : Schema I O) : scoped sch → scoped (array sch).
Proof.
  intros Hs p xs. rewrite array_issues. apply Forall_concat, Forall_forall.
  intros l (i & x & -> & _)%elem_of_lookup_imap.
  eapply Forall_impl; [apply (Hs (p ++ [Idx i]))|].
  intros e He; simpl in *. by eapply prefix_app_l.
Qed.

#[export] Hint Resolve scoped_string_ scoped_transform scoped_refine
  scoped_enum_ scoped_required scoped_optional scoped_instanceof
  scoped_custom scoped_field scoped_prop scoped_object_ scoped_array : scoped.

(** What a key contributes never sits at the path of another key. *)
Lemma filter_other_key (k k' : string) (iss : list Issue) :
  Forall (λ i, [Key k] `prefix_of` path i) iss → k ≠ k' →
  filter (λ i, path i = [Key k']) iss = [].
Proof.
  intros Hf Hk. induction Hf as [|i iss Hi _ IH]; [done|].
  rewrite filter_cons_False; [done|].
  intros Hp. rewrite Hp in Hi. apply prefix_cons_inv_1 in Hi. congruence.
Qed.

Lemma issues_at_other_key {I O} (k k' : string) (sch : Schema I O) (x : I) :
  scoped sch → k ≠ k' →
  filter (λ i, path i = [Key k']) (issues (field k sch [] x)) = [].
Proof.
  intros Hs Hk. apply (filter_other_key k); [|done]. apply (Hs ([] ++ [Key k])).
Qed.

Lemma not_under_other_key {I O} (k k' : string) (sch : Schema I O) (x : I) :
  scoped sch → k ≠ k' →
  Forall (λ i, ¬ [Key k'] `prefix_of` path i) (issues (field k sch [] x)).
Proof.
  intros Hs Hk. eapply Forall_impl; [apply (Hs ([] ++ [Key k]))|].
  intros i Hi Hi'. simpl in Hi.
  destruct (path i) as [|seg q].
  - by apply prefix_nil_not in Hi.
  - apply prefix_cons_inv_1 in Hi. apply prefix_cons_inv_1 in Hi'. congruence.
Qed.

Lemma filter_same_path (p : list Seg) (iss : list Issue) :
  Forall (λ i, path i = p) iss → filter (λ i, path i = p) iss = iss.
Proof.
  induction 1 as [|i iss Hi _ IH]; [done|].
  rewrite filter_cons_True by done. by rewrite IH.
Qed.

(** A schema whose issue-free results return the input itself keeps doing
    so row by row. *)
Lemma array_value {I} (sch : Schema I I) (p : list Seg) (xs : list I) :
  (∀ q x, issues (sch q x) = [] → value (sch q x) = Some x) →
  issues (array sch p xs) = [] → value (array sch p xs) = Some xs.
Proof.
  intros Hsch. unfold array; simpl.
  assert (Hg : ∀ g : nat → I → Parsed I,
             (∀ i x, ∃ q, g i x = sch q x) →
             concat (issues <$> imap g xs) = [] →
             mapM value (imap g xs) = Some xs).
  { induction xs as [|x xs IH]; intros g Hq; [done|]. simpl.
    intros [H1 H2]%app_eq_nil.
    destruct (Hq 0 x) as [q Hq0]. rewrite Hq0 in H1 |- *.
    rewrite (Hsch _ _ H1). simpl.
    rewrite (IH (g ∘ S)); [done| |done].
    intros i y. apply (Hq (S i)). }
  apply Hg. intros i x. by eexists.
Qed.

End ZodFacts.

(** ** Upper-casing *)

Module JsFacts.
Import Js.

Lemma chars_append (s t : string) : chars (s +:+ t) = chars s ++ chars t.
Proof.
  induction s as [|c s IH]; [done|].
  rewrite RegexFacts.append_cons. simpl. by rewrite IH.
Qed.

(** A unit of a text splits the text. *)
Lemma chars_split (c : ascii) (s : string) :
  c ∈ chars s → ∃ s1 s2, s = s1 +:+ String c s2.
Proof.
  induction s as [|x s IH]; simpl; [by intros ?%elem_of_nil|].
  intros [->|Hin]%elem_of_cons.
  - by exists EmptyString, s.
  - destruct (IH Hin) as (s1 & s2 & ->). by exists (String x s1), s2.
Qed.

Section WithCasing.
Context `{Casing}.

Lemma toUpperCase_cons (c : ascii) (s : string) :
  is_ascii c = true →
  toUpperCase (String c s) = String (upper_char c) (toUpperCase s).
Proof.
  intros Hc. pose proof (toUpperCase_ascii EmptyString c s Hc) as Hup.
  by rewrite toUpperCase_empty in Hup.
Qed.

(** An ASCII text is upper-cased unit by unit. *)
Lemma chars_toUpperCase (s : string) :
  ascii_text s = true → chars (toUpperCase s) = upper_char <$> chars s.
Proof.
  unfold ascii_text. induction s as [|c s IH]; simpl.
  - by rewrite toUpperCase_empty.
  - intros [Hc Hs]%andb_true_iff. rewrite toUpperCase_cons by done.
    simpl. by rewrite IH.
Qed.

(** Upper-casing keeps an at-sign where it is. *)
Lemma at_sign_survives (s : string) :
  "@"%char ∈ chars s → "@"%char ∈ chars (toUpperCase s).
Proof.
  intros (s1 & s2 & ->)%chars_split.
  rewrite toUpperCase_ascii by done. rewrite chars_append.
  apply elem_of_app. right. apply list_elem_of_here.
Qed.

Lemma toUpperCase_fixed (s : string) :
  (∀ c, c ∈ chars s → is_ascii c = true ∧ upper_char c = c) →
  toUpperCase s = s.
Proof.
  induction s as [|c s IH]; simpl; [by rewrite toUpperCase_empty|]. intros Hc.
  destruct (Hc c) as [Ha Hu]; [apply list_elem_of_here|].
  rewrite toUpperCase_cons, Hu by done. rewrite IH; [done|].
  intros c' Hc'. apply Hc. by apply list_elem_of_further.
Qed.

(** A text accepted by a pattern whose leaves hold capitals and digits is
    its own upper-casing. *)
Lemma test_upper_fixed (r : Regex.re) (s : string) :
  (∀ c, Regex.alphabet r c = true → is_ascii c = true ∧ upper_char c = c) →
  Regex.test r s = true → toUpperCase s = s.
Proof.
  intros Hr Ht. apply toUpperCase_fixed. intros c Hc.
  apply Hr. by eapply RegexFacts.test_alphabet.
Qed.

End WithCasing.

Lemma enrollNo_alphabet_upper (c : ascii) :
  Regex.alphabet Portfolio.enrollNo_re c = true →
  is_ascii c = true ∧ upper_char c = c.
Proof.
  destruct c as [[] [] [] [] [] [] [] []]; vm_compute; intros Hc;
    first [discriminate Hc | by split].
Qed.

Lemma facultyNo_alphabet_upper (c : ascii) :
  Regex.alphabet Portfolio.facultyNo_re c = true →
  is_ascii c = true ∧ upper_char c = c.
Proof.
  destruct c as [[] [] [] [] [] [] [] []]; vm_compute; intros Hc;
    first [discriminate Hc | by split].
Qed.

End JsFacts.

(** ** Patterns that are sequences of single units *)

Module ShapeFacts.
Import Regex Shape.

Lemma fits_nil (cs : list ascii) : fits [] cs = true ↔ cs = [].
Proof. by destruct cs. Qed.

(** A text fits two shapes in a row when it splits into a text of the one
    and a text of the other. *)
Lemma fits_app (ps qs : list (ascii → bool)) (s : string) :
  fits (ps ++ qs) (Js.chars s) = true
  ↔ ∃ s1 s2, s = s1 +:+ s2
             ∧ fits ps (Js.chars s1) = true ∧ fits qs (Js.chars s2) = true.
Proof.
  revert s. induction ps as [|p ps IH]; intros s; simpl.
  - split.
    + intros Hq. by exists EmptyString, s.
    + intros (s1 & s2 & -> & H1 & H2). apply fits_nil in H1.
      destruct s1; [done|discriminate H1].
  - destruct s as [|c s]; simpl.
    + split; [done|]. intros (s1 & s2 & Hs & H1 & _).
      destruct s1; [discriminate H1|discriminate Hs].
    + rewrite andb_true_iff, IH. split.
      * intros (Hc & s1 & s2 & -> & H1 & H2).
        exists (String c s1), s2. simpl. by rewrite Hc, H1.
      * intros (s1 & s2 & Hs & H1 & H2). destruct s1 as [|c' s1]; [done|].
        rewrite RegexFacts.append_cons in Hs. injection Hs as -> ->.
        simpl in H1. apply andb_true_iff in H1 as [Hc H1].
        split; [done|]. by exists s1, s2.
Qed.

(** The matcher, on a pattern that is a sequence of single units, tests
    the text unit by unit. *)
Lemma test_classes (r : re) :
  ∀ ps s, classes r = Some ps → test r s = fits ps (Js.chars s).
Proof.
  assert (Hiff : ∀ ps s, classes r = Some ps →
                   Lang r s ↔ fits ps (Js.chars s) = true).
  { induction r as [| |a|rs|r1 IH1 r2 IH2|r1 IH1 r2 IH2]; intros ps s Hps;
      simpl in Hps; try discriminate Hps.
    - injection Hps as <-. split.
      + by inversion 1.
      + intros Hs%fits_nil. destruct s; [constructor|discriminate Hs].
    - injection Hps as <-. split.
      + inversion 1; subst. simpl. by rewrite bool_decide_true.
      + destruct s as [|c [|c' s]]; simpl; try done.
        * rewrite andb_true_r. intros ->%bool_decide_eq_true. constructor.
        * by rewrite andb_false_r.
    - injection Hps as <-. split.
      + inversion 1; subst. simpl. by rewrite andb_true_r.
      + destruct s as [|c [|c' s]]; simpl; try done.
        * rewrite andb_true_r. by constructor.
        * by rewrite andb_false_r.
    - destruct (classes r1) as [ps1|]; [|discriminate Hps].
      destruct (classes r2) as [ps2|]; [|discriminate Hps].
      injection Hps as <-. rewrite fits_app.
      pose proof (λ s, IH1 ps1 s eq_refl) as I1.
      pose proof (λ s, IH2 ps2 s eq_refl) as I2. split.
      + inversion 1; subst. eexists _, _. split; [done|].
        split; [by apply I1|by apply I2].
      + intros (s1 & s2 & -> & H1 & H2).
        apply Lang_seq; [by apply I1|by apply I2]. }
  intros ps s Hps. apply eq_true_iff_eq.
  rewrite RegexFacts.test_spec. by apply Hiff.
Qed.

Lemma fits_fmap (f : ascii → ascii) (ps : list (ascii → bool)) :
  ∀ cs, fits ps (f <$> cs) = fits ((λ p c, p (f c)) <$> ps) cs.
Proof.
  induction ps as [|p ps IH]; intros [|c cs]; simpl; try done.
  by rewrite IH.
Qed.

Lemma fits_ext (ps qs : list (ascii → bool)) :
  Forall2 (λ p q, ∀ c, p c = q c) ps qs → ∀ cs, fits ps cs = fits qs cs.
Proof.
  induction 1 as [|p q ps qs Hpq _ IH]; intros [|c cs]; simpl; try done.
  by rewrite Hpq, IH.
Qed.

Lemma capital_of_letter (c : ascii) :
  is_capital (Js.upper_char c) = is_letter c.
Proof. by destruct c as [[] [] [] [] [] [] [] []]. Qed.

Lemma capital_of_digit (c : ascii) : is_digit (Js.upper_char c) = is_digit c.
Proof. by destruct c as [[] [] [] [] [] [] [] []]. Qed.

(** [^[A-Z]{2}[0-9]{4}$]: two capitals and four digits. *)
Lemma test_enrollNo (t : string) :
  test Portfolio.enrollNo_re t = fits enrollNo (Js.chars t).
Proof.
  rewrite (test_classes Portfolio.enrollNo_re _ t eq_refl). apply fits_ext.
  repeat constructor; intros c; apply orb_false_r.
Qed.

(** [^[0-9]{2}[A-Z]{5}[0-9]{3}$]: two digits, five capitals, three
    digits. *)
Lemma test_facultyNo (t : string) :
  test Portfolio.facultyNo_re t = fits facultyNo (Js.chars t).
Proof.
  rewrite (test_classes Portfolio.facultyNo_re _ t eq_refl). apply fits_ext.
  repeat constructor; intros c; apply orb_false_r.
Qed.

(** Upper-casing first lets small letters pass where capitals are asked
    for. *)
Lemma fits_upper_enrollNo (cs : list ascii) :
  fits enrollNo (Js.upper_char <$> cs) = fits enrollNo_typed cs.
Proof.
  rewrite fits_fmap. apply fits_ext.
  repeat constructor; intros c;
    first [apply capital_of_letter | apply capital_of_digit].
Qed.

Lemma fits_upper_facultyNo (cs : list ascii) :
  fits facultyNo (Js.upper_char <$> cs) = fits facultyNo_typed cs.
Proof.
  rewrite fits_fmap. apply fits_ext.
  repeat constructor; intros c;
    first [apply capital_of_letter | apply capital_of_digit].
Qed.

End ShapeFacts.

(** ** The error object and the field arrays *)

Module RhfFacts.
Import Rhf.

Lemma toErrors_cons (i : Zod.Issue) (iss : list Zod.Issue) :
  toErrors (i :: iss) = <[Zod.path i := Zod.message i]> (toErrors iss).
Proof. reflexivity. Qed.

(** The first issue raised at a path is the one the error object shows. *)
Lemma toErrors_first (i : Zod.Issue) (iss : list Zod.Issue) :
  toErrors (i :: iss) !! Zod.path i = Some (Zod.message i).
Proof. rewrite toErrors_cons. apply lookup_insert_eq. Qed.

Lemma toErrors_lookup (iss : list Zod.Issue) (p : list Zod.Seg) :
  toErrors iss !! p
  = Zod.message <$> head (filter (λ i, Zod.path i = p) iss).
Proof.
  induction iss as [|i iss IH]; [apply lookup_empty|].
  rewrite toErrors_cons, filter_cons. destruct (decide (Zod.path i = p)) as [<-|Hne].
  - by rewrite lookup_insert_eq.
  - by rewrite lookup_insert_ne.
Qed.

(** A path carries an error exactly when some issue was raised there. *)
Lemma toErrors_is_Some (iss : list Zod.Issue) (p : list Zod.Seg) :
  is_Some (toErrors iss !! p) ↔ ∃ i, i ∈ iss ∧ Zod.path i = p.
Proof.
  induction iss as [|i iss IH].
  - simpl. rewrite lookup_empty. split; [by intros [? ?]|].
    intros (i & Hi & _). by apply elem_of_nil in Hi.
  - rewrite toErrors_cons. destruct (decide (Zod.path i = p)) as [<-|Hne].
    + rewrite lookup_insert_eq. split; [|by eauto].
      intros _. exists i. split; [apply list_elem_of_here|done].
    + rewrite lookup_insert_ne by done. rewrite IH. split.
      * intros (j & Hj & Hp). exists j. split; [by apply list_elem_of_further|done].
      * intros (j & [->|Hj]%elem_of_cons & Hp); [done|by eauto].
Qed.

Lemma handleSubmit_valid {I O E} (schema : Zod.Schema I O) (onValid : O → list E)
    (values : I) (data : O) :
  Zod.issues (schema [] values) = [] →
  Zod.value (schema [] values) = Some data →
  handleSubmit schema onValid values = mkOutcome ∅ (onValid data).
Proof. unfold handleSubmit. by intros -> ->. Qed.

Lemma handleSubmit_invalid {I O E} (schema : Zod.Schema I O) (onValid : O → list E)
    (values : I) :
  Zod.issues (schema [] values) ≠ [] →
  handleSubmit schema onValid values
  = mkOutcome (toErrors (Zod.issues (schema [] values))) [].
Proof. unfold handleSubmit. by destruct (Zod.issues (schema [] values)). Qed.

Section FieldArray.
Context {V : Type}.
Implicit Types (c : Control V) (name : string) (v : V).

Lemma fields_append name v c :
  fields name (append name v c) = fields name c ++ [mkRow (nextId c) v].
Proof. unfold fields, append; simpl. by rewrite lookup_insert_eq. Qed.

Lemma fields_append_ne name name' v c :
  name ≠ name' → fields name' (append name v c) = fields name' c.
Proof. intros. unfold fields, append; simpl. by rewrite lookup_insert_ne. Qed.

Lemma fields_remove name index c :
  fields name (remove name index c) = delete index (fields name c).
Proof. unfold fields, remove; simpl. by rewrite lookup_insert_eq. Qed.

Lemma fields_remove_ne name name' index c :
  name ≠ name' → fields name' (remove name index c) = fields name' c.
Proof. intros. unfold fields, remove; simpl. by rewrite lookup_insert_ne. Qed.

(** Removing the row that was just appended gives the rows back. *)
Lemma fields_append_remove name v c :
  fields name (remove name (length (fields name c)) (append name v c))
  = fields name c.
Proof.
  rewrite fields_remove, fields_append.
  rewrite delete_middle. apply app_nil_r.
Qed.

(** What the manager of a one-manager array writes to the form. *)
Lemma values_fields name c :
  getFieldArray name (values c) = entry <$> fields name c.
Proof.
  unfold getFieldArray, values, fields. rewrite lookup_fmap.
  by destruct (arrays c !! name).
Qed.

Lemma values_append name v c :
  values (append name v c) = appendValue name v (values c).
Proof.
  unfold appendValue. rewrite values_fields. unfold values, append; simpl.
  by rewrite fmap_insert, fmap_app.
Qed.

Lemma values_remove name index c :
  values (remove name index c) = removeValue name index (values c).
Proof.
  unfold removeValue. rewrite values_fields. unfold values, remove; simpl.
  rewrite fmap_insert. f_equal.
  generalize (fields name c) as rows. intros rows. revert index.
  induction rows as [|r rows IH]; intros [|index]; simpl; try done.
  by rewrite <- IH.
Qed.

End FieldArray.

Section FormArrays.
Context {V : Type}.
Implicit Types (vs : gmap string (list V)) (name : string) (v : V).

Lemma getFieldArray_appendValue name v vs :
  getFieldArray name (appendValue name v vs) = getFieldArray name vs ++ [v].
Proof. unfold getFieldArray at 1, appendValue. by rewrite lookup_insert_eq. Qed.

Lemma getFieldArray_removeValue name index vs :
  getFieldArray name (removeValue name index vs)
  = delete index (getFieldArray name vs).
Proof. unfold getFieldArray at 1, removeValue. by rewrite lookup_insert_eq. Qed.

End FormArrays.

End RhfFacts.

(** ** Sub-list managers *)

(** C4. In each of the four repeatable sections, pressing the add button
    (which appends the section's default entry at the end) and then
    deleting the row at index [length L], the one just appended, gives the
    rows [L] back: the same entries under the same keys, and so the same
    length. *)
Theorem add_then_remove_restores
    (s : Portfolio.Sublist) (c : Rhf.Control Portfolio.Entry) :
  Portfolio.rows s (Portfolio.add s c)
  = Portfolio.rows s c
    ++ [Rhf.mkRow (Rhf.nextId c) (Portfolio.defaultEntry s)]
  ∧ Portfolio.rows s
      (Portfolio.removeAt s (length (Portfolio.rows s c)) (Portfolio.add s c))
    = Portfolio.rows s c
  ∧ length
      (Portfolio.rows s
         (Portfolio.removeAt s (length (Portfolio.rows s c))
            (Portfolio.add s c)))
    = length (Portfolio.rows s c).
Proof.
  assert (Hback :
    Portfolio.rows s
      (Portfolio.removeAt s (length (Portfolio.rows s c)) (Portfolio.add s c))
    = Portfolio.rows s c)
    by (destruct s; apply RhfFacts.fields_append_remove).
  split; [|split]; [|done|by rewrite Hback].
  destruct s; apply RhfFacts.fields_append.
Qed.

(** C5. Deleting row [i] of a section that shows [n] rows, [i < n], leaves
    [n - 1] rows; the rows before [i] stay where they were and every row
    after [i] moves down by one place, each with the key and the entry it
    had: the remaining rows are the old ones, in the old order. *)
Theorem removeAt_shifts_rows
    (s : Portfolio.Sublist) (c : Rhf.Control Portfolio.Entry) (i : nat) :
  i < length (Portfolio.rows s c) →
  length (Portfolio.rows s (Portfolio.removeAt s i c))
  = length (Portfolio.rows s c) - 1
  ∧ (∀ j, j < i →
       Portfolio.rows s (Portfolio.removeAt s i c) !! j
       = Portfolio.rows s c !! j)
  ∧ (∀ j, i ≤ j →
       Portfolio.rows s (Portfolio.removeAt s i c) !! j
       = Portfolio.rows s c !! S j)
  ∧ Portfolio.rows s (Portfolio.removeAt s i c)
    = take i (Portfolio.rows s c) ++ drop (S i) (Portfolio.rows s c).
Proof.
  intros Hi.
  assert (Hdel : Portfolio.rows s (Portfolio.removeAt s i c)
                 = delete i (Portfolio.rows s c))
    by (destruct s; apply RhfFacts.fields_remove).
  rewrite Hdel. repeat split.
  - apply length_delete. by apply lookup_lt_is_Some.
  - intros j Hj. by apply list_lookup_delete_lt.
  - intros j Hj. by apply list_lookup_delete_ge.
  - apply delete_take_drop.
Qed.

Lemma removeAt_shifts_rows_witness :
  1 < length (Portfolio.rows Portfolio.Languages Samples.control)
  ∧ length
      (Portfolio.rows Portfolio.Languages
         (Portfolio.removeAt Portfolio.Languages 1 Samples.control))
    = length (Portfolio.rows Portfolio.Languages Samples.control) - 1.
Proof.
  assert (H : 1 < length (Portfolio.rows Portfolio.Languages Samples.control))
    by (vm_compute; lia).
  split; [exact H|].
  exact (proj1 (removeAt_shifts_rows Portfolio.Languages Samples.control 1 H)).
Defined.

(** In the variant of part_000 every manager is bound to the array of its
    own section: adding to or deleting from one section leaves the rows of
    the other three as they were. *)
Lemma managers_independent
    (s s' : Portfolio.Sublist) (c : Rhf.Control Portfolio.Entry) (i : nat) :
  s ≠ s' →
  Portfolio.rows s' (Portfolio.add s c) = Portfolio.rows s' c
  ∧ Portfolio.rows s' (Portfolio.removeAt s i c) = Portfolio.rows s' c.
Proof.
  intros Hne. split.
  - destruct s, s'; try done; by apply RhfFacts.fields_append_ne.
  - destruct s, s'; try done; by apply RhfFacts.fields_remove_ne.
Qed.

Lemma managers_independent_witness :
  Portfolio.rows Portfolio.Languages
    (Portfolio.add Portfolio.Skills Samples.control)
  = Portfolio.rows Portfolio.Languages Samples.control.
Proof.
  refine (proj1 (managers_independent Portfolio.Skills Portfolio.Languages
                   Samples.control 0 _)).
  discriminate.
Defined.

(** C6, the variant of components/StudentPortfolioForm.tsx evaluated.  Its
    skills manager is bound to [progLangs], the field name of the
    languages: appending a skill writes the skill row to the end of the
    document's array of languages, and deleting skill row [i] deletes
    language [i] of the document, as the languages manager would.  Its
    projects manager is bound to [project]: a new project row is written
    to an array [project], while the document schema reads [projects]. *)
Theorem strict_managers_write_to_other_arrays
    (vs : gmap string (list PortfolioStrict.Entry))
    (e : PortfolioStrict.Skill) (pr : PortfolioStrict.Project) (i : nat) :
  Rhf.getFieldArray "progLangs" (PortfolioStrict.appendsSkill e vs)
  = Rhf.getFieldArray "progLangs" vs ++ [PortfolioStrict.SkillEntry e]
  ∧ Rhf.getFieldArray "progLangs" (PortfolioStrict.removeSkill i vs)
    = delete i (Rhf.getFieldArray "progLangs" vs)
  ∧ PortfolioStrict.removeSkill i vs = PortfolioStrict.removeLanguage i vs
  ∧ Rhf.getFieldArray "project" (PortfolioStrict.appendProject pr vs)
    = Rhf.getFieldArray "project" vs ++ [PortfolioStrict.ProjectEntry pr].
Proof.
  split; [|split; [|split]].
  - apply RhfFacts.getFieldArray_appendValue.
  - apply RhfFacts.getFieldArray_removeValue.
  - reflexivity.
  - apply RhfFacts.getFieldArray_appendValue.
Qed.

(** ** The login page *)

(** C8. The login submit handler sends exactly one request: a POST of the
    form data [{email, password}] to the fixed local endpoint, with
    credentials included.  When the request resolves (a 2xx reply) the
    handler navigates to the application root; when it rejects (no reply,
    or a reply with any other status) the handler raises the alert with the
    generic message and never navigates. *)
Theorem login_onSubmit_effects
    (server : string → Login.FormValues → Axios.Reply)
    (data : Login.FormValues) :
  filter (λ e, Login.is_post e) (Login.onSubmit server data)
  = [Login.Post "http://localhost:3000/api/v1/users/login" data true]
  ∧ (∀ status body,
       server Login.endpoint data = Axios.Response status body →
       200 ≤ status < 300 →
       Login.Navigate "/" ∈ Login.onSubmit server data)
  ∧ (server Login.endpoint data = Axios.NetworkError
     ∨ (∃ status body,
          server Login.endpoint data = Axios.Response status body
          ∧ ¬ 200 ≤ status < 300) →
     Login.Alert "Invalid credentials or something went wrong"
       ∈ Login.onSubmit server data
     ∧ filter (λ e, Login.is_navigate e) (Login.onSubmit server data) = []).
Proof.
  unfold Login.onSubmit. split; [|split].
  - by destruct (Axios.resolves _).
  - intros status body -> Hs. unfold Axios.resolves.
    assert ((200 <=? status) && (status <? 300) = true) as ->.
    { apply andb_true_iff. split; [apply Nat.leb_le | apply Nat.ltb_lt]; lia. }
    elem_of_literal.
  - intros Hfail.
    assert (Axios.resolves (server Login.endpoint data) = None) as ->.
    { destruct Hfail as [->|(status & body & -> & Hs)]; [done|].
      unfold Axios.resolves.
      destruct (200 <=? status) eqn:H1, (status <? 300) eqn:H2; try done.
      apply Nat.leb_le in H1. apply Nat.ltb_lt in H2. lia. }
    split; [elem_of_literal|done].
Qed.

Lemma login_onSubmit_effects_witness :
  Login.Alert "Invalid credentials or something went wrong"
    ∈ Login.onSubmit (Samples.server (Axios.Response 401 "Unauthorized"))
        (Login.mkFormValues "GK1234" "secret1")
  ∧ Login.Navigate "/"
    ∈ Login.onSubmit (Samples.server (Axios.Response 200 "ok"))
        (Login.mkFormValues "GK1234" "secret1").
Proof.
  split.
  - refine (proj1 (proj2 (proj2 (login_onSubmit_effects
              (Samples.server (Axios.Response 401 "Unauthorized"))
              (Login.mkFormValues "GK1234" "secret1"))) _)).
    right. exists 401, "Unauthorized". split; [reflexivity|lia].
  - refine (proj1 (proj2 (login_onSubmit_effects
              (Samples.server (Axios.Response 200 "ok"))
              (Login.mkFormValues "GK1234" "secret1"))) 200 "ok" _ _);
      [reflexivity|lia].
Defined.

(** C10. The login field named [email] is checked as an enrollment number
    and not as an address.  The text is upper-cased by the runtime; the
    upper-cased text is the value of the field, and it is accepted exactly
    when it matches [^[A-Z]{2}[0-9]{4}$], that is, when it is two capitals
    followed by four digits.  A text typed in ASCII is upper-cased unit by
    unit, so it is accepted exactly when it is two letters of either case
    followed by four digits.  A text with an at-sign in it is refused: the
    submit records [Invalid Enrollment number] under [email] and the
    handler does not run, so no request is sent. *)
Theorem login_email_is_enrollment_number `{Js.Casing}
    (server : string → Login.FormValues → Axios.Reply) (e pw : string) :
  Login.emailSchema [Zod.Key "email"] e
  = Zod.mkParsed (Some (Js.toUpperCase e))
      (if Regex.test Login.email_re (Js.toUpperCase e) then []
       else [Zod.mkIssue [Zod.Key "email"] (Some "Invalid Enrollment number")])
  ∧ (∀ t, Regex.test Login.email_re t
          = Shape.fits Shape.enrollNo (Js.chars t))
  ∧ (Js.ascii_text e = true →
     Js.chars (Js.toUpperCase e) = Js.upper_char <$> Js.chars e
     ∧ (Zod.issues (Login.emailSchema [Zod.Key "email"] e) = []
        ↔ Shape.fits Shape.enrollNo_typed (Js.chars e) = true))
  ∧ ("@"%char ∈ Js.chars e →
     Regex.test Login.email_re (Js.toUpperCase e) = false
     ∧ Rhf.errors (Login.submit server (Login.mkFormValues e pw))
         !! [Zod.Key "email"]
       = Some (Some "Invalid Enrollment number")
     ∧ Rhf.effects (Login.submit server (Login.mkFormValues e pw)) = []).
Proof.
  assert (Hcase :
    Login.emailSchema [Zod.Key "email"] e
    = Zod.mkParsed (Some (Js.toUpperCase e))
        (if Regex.test Login.email_re (Js.toUpperCase e) then []
         else [Zod.mkIssue [Zod.Key "email"]
                 (Some "Invalid Enrollment number")])).
  { unfold Login.emailSchema, Zod.refine, Zod.transform, Zod.string_. simpl.
    by destruct (Regex.test _ _). }
  split; [done|]. split; [|split].
  - intros t. apply ShapeFacts.test_enrollNo.
  - intros Hascii.
    pose proof (JsFacts.chars_toUpperCase e Hascii) as Hup.
    split; [done|]. rewrite Hcase. cbn [Zod.issues].
    rewrite <- ShapeFacts.fits_upper_enrollNo, <- Hup.
    rewrite <- (ShapeFacts.test_enrollNo (Js.toUpperCase e)).
    change (Regex.test Portfolio.enrollNo_re (Js.toUpperCase e))
      with (Regex.test Login.email_re (Js.toUpperCase e)).
    by destruct (Regex.test _ _).
  - intros Hat.
    assert (Hno : Regex.test Login.email_re (Js.toUpperCase e) = false).
    { destruct (Regex.test _ _) eqn:Ht; [|done].
      apply JsFacts.at_sign_survives in Hat.
      by pose proof (RegexFacts.test_alphabet _ _ _ Ht Hat). }
    split; [done|].
    unfold Login.submit, Rhf.handleSubmit, Login.formSchema, Zod.field.
    simpl. rewrite Hcase, Hno. simpl. split; [|done].
    apply lookup_insert_eq.
Qed.

Lemma login_email_is_enrollment_number_witness :
  @Login.emailSchema Samples.casing [Zod.Key "email"] "gk1234"
  = Zod.mkParsed (Some "GK1234") []
  ∧ Js.chars (@Js.toUpperCase Samples.casing "gk1234")
    = ["G"; "K"; "1"; "2"; "3"; "4"]%char
  ∧ @Login.emailSchema Samples.casing [Zod.Key "email"]
      (String "223" "1234")
    = Zod.mkParsed (Some "SS1234") []
  ∧ Zod.issues (@Login.emailSchema Samples.casing [Zod.Key "email"] "g1234k")
    ≠ []
  ∧ Samples.email_shape "asha@example.org" = true
  ∧ Rhf.effects
      (@Login.submit Samples.casing (Samples.server (Axios.Response 200 "ok"))
         (Login.mkFormValues "asha@example.org" "secret1")) = [].
Proof.
  split; [|split; [|split; [|split; [|split]]]].
  - exact (proj1 (@login_email_is_enrollment_number Samples.casing
                    (Samples.server Axios.NetworkError) "gk1234" "")).
  - exact (proj1 (proj1 (proj2 (proj2
             (@login_email_is_enrollment_number Samples.casing
                (Samples.server Axios.NetworkError) "gk1234" ""))) eq_refl)).
  - exact (proj1 (@login_email_is_enrollment_number Samples.casing
                    (Samples.server Axios.NetworkError)
                    (String "223" "1234") "")).
  - intros Hnone.
    pose proof (proj1 (proj2 (proj1 (proj2 (proj2
      (@login_email_is_enrollment_number Samples.casing
         (Samples.server Axios.NetworkError) "g1234k" ""))) eq_refl)) Hnone)
      as Hfits.
    discriminate Hfits.
  - reflexivity.
  - refine (proj2 (proj2 (proj2 (proj2 (proj2
            (@login_email_is_enrollment_number Samples.casing
               (Samples.server (Axios.Response 200 "ok"))
               "asha@example.org" "secret1"))) _))).
    elem_of_literal.
Defined.

(** ** The profile picture *)

(** The picture schema by itself, run on an object that holds the list of
    a file input under the key [profilePicture] (the page builds no such
    object, see below).  With [f] the first file of the list: a file above
    2MB raises the size error (and nothing else when its type is allowed);
    a JPEG or PNG of at most 2MB is accepted; a file of any other type
    raises the type error. *)
Lemma profilePictureSchema_on_wrapper
    (f : Dom.File) (rest : list Dom.File) (p : list Zod.Seg) :
  ((PortfolioStrict.maxSize < Dom.size f)%N →
   Zod.mkIssue (p ++ [Zod.Key "profilePicture"])
     (Some "File size must be less than 2MB.")
   ∈ Zod.issues
       (PortfolioStrict.profilePictureSchema p
          (Dom.Object [("profilePicture", Dom.FileList (f :: rest))])))
  ∧ ((PortfolioStrict.maxSize < Dom.size f)%N →
     Dom.type f ∈ PortfolioStrict.fileFormat →
     Zod.issues
       (PortfolioStrict.profilePictureSchema p
          (Dom.Object [("profilePicture", Dom.FileList (f :: rest))]))
     = [Zod.mkIssue (p ++ [Zod.Key "profilePicture"])
          (Some "File size must be less than 2MB.")])
  ∧ ((Dom.size f ≤ PortfolioStrict.maxSize)%N →
     Dom.type f ∈ PortfolioStrict.fileFormat →
     PortfolioStrict.profilePictureSchema p
       (Dom.Object [("profilePicture", Dom.FileList (f :: rest))])
     = Zod.mkParsed (Some (f :: rest)) [])
  ∧ (Dom.type f ∉ PortfolioStrict.fileFormat →
     Zod.mkIssue (p ++ [Zod.Key "profilePicture"])
       (Some "Invalid file type. Only JPEG and PNG are allowed.")
     ∈ Zod.issues
         (PortfolioStrict.profilePictureSchema p
            (Dom.Object [("profilePicture", Dom.FileList (f :: rest))]))).
Proof.
  assert (Hrun :
    PortfolioStrict.profilePictureSchema p
      (Dom.Object [("profilePicture", Dom.FileList (f :: rest))])
    = Zod.mkParsed (Some (f :: rest))
        ((if (Dom.size f <=? PortfolioStrict.maxSize)%N then []
          else [Zod.mkIssue (p ++ [Zod.Key "profilePicture"])
                  (Some "File size must be less than 2MB.")])
         ++ (if Js.includes PortfolioStrict.fileFormat (Dom.type f) then []
             else [Zod.mkIssue (p ++ [Zod.Key "profilePicture"])
                     (Some "Invalid file type. Only JPEG and PNG are allowed.")]))).
  { unfold PortfolioStrict.profilePictureSchema, Zod.object_, Zod.prop,
      Zod.refine, Zod.custom, PortfolioStrict.size_ok, PortfolioStrict.type_ok.
    simpl.
    destruct (Dom.size f <=? PortfolioStrict.maxSize)%N; simpl;
      destruct (Js.includes PortfolioStrict.fileFormat (Dom.type f)); done. }
  rewrite Hrun. simpl. unfold Js.includes.
  repeat split.
  - intros Hbig. rewrite (proj2 (N.leb_gt _ _) Hbig). elem_of_literal.
  - intros Hbig Hty. rewrite (proj2 (N.leb_gt _ _) Hbig).
    by rewrite bool_decide_true.
  - intros Hsmall Hty. rewrite (proj2 (N.leb_le _ _) Hsmall).
    by rewrite bool_decide_true.
  - intros Hty. rewrite bool_decide_false by done.
    destruct (Dom.size f <=? PortfolioStrict.maxSize)%N; elem_of_literal.
Qed.

Example profilePictureSchema_on_wrapper_samples :
  Zod.issues
    (PortfolioStrict.profilePictureSchema []
       (Dom.Object [("profilePicture", Dom.FileList [Samples.jpeg_3MB])]))
  = [Zod.mkIssue [Zod.Key "profilePicture"]
       (Some "File size must be less than 2MB.")]
  ∧ PortfolioStrict.profilePictureSchema []
      (Dom.Object [("profilePicture", Dom.FileList [Samples.png_1MB])])
    = Zod.mkParsed (Some [Samples.png_1MB]) []
  ∧ Zod.mkIssue [Zod.Key "profilePicture"]
      (Some "Invalid file type. Only JPEG and PNG are allowed.")
    ∈ Zod.issues
        (PortfolioStrict.profilePictureSchema []
           (Dom.Object [("profilePicture", Dom.FileList [Samples.gif_1KB])])).
Proof.
  split; [|split].
  - refine (proj1 (proj2 (profilePictureSchema_on_wrapper Samples.jpeg_3MB [] [])) _ _).
    + reflexivity.
    + elem_of_literal.
  - refine (proj1 (proj2 (proj2
              (profilePictureSchema_on_wrapper Samples.png_1MB [] []))) _ _).
    + discriminate.
    + elem_of_literal.
  - refine (proj2 (proj2 (proj2
              (profilePictureSchema_on_wrapper Samples.gif_1KB [] []))) _).
    unfold PortfolioStrict.fileFormat. simpl.
    rewrite !elem_of_cons, elem_of_nil. intros [H|[H|[]]]; discriminate H.
Qed.

(** In the form of this variant the field [profilePicture] holds the file
    list itself, while [FormSchema] hands that field to
    [profilePictureSchema], an object schema that looks for a property
    [profilePicture] inside it.  A file list has none, so whatever was
    chosen, the document is refused at [profilePicture.profilePicture]
    before size and type are looked at. *)
Lemma profilePicture_in_form_always_refused (files : list Dom.File) :
  PortfolioStrict.profilePictureSchema [Zod.Key "profilePicture"]
    (Dom.FileList files)
  = Zod.mkParsed None
      [Zod.mkIssue [Zod.Key "profilePicture"; Zod.Key "profilePicture"]
         (Some "Please upload a file.")].
Proof. reflexivity. Qed.

(** The sample profile of this variant, a faultless one as far as the
    specification goes (a 1MB PNG, MCA, semester [MCA: II]), is stopped by
    exactly two issues: the picture and the semester. *)
Example strict_profile_issues :
  Zod.issues (@PortfolioStrict.FormSchema Samples.formats [] Samples.strict_profile)
  = [ Zod.mkIssue [Zod.Key "profilePicture"; Zod.Key "profilePicture"]
        (Some "Please upload a file.");
      Zod.mkIssue [Zod.Key "semester"]
        (Some "Invalid semester for the selected course") ].
Proof. vm_compute. reflexivity. Qed.

(** ** The semester field of the variant with the semester pattern *)

Module StrictFacts.
Import ZodFacts PortfolioStrict.

(** An object schema written key by key reports below its own path. *)
Ltac scoped_object :=
  unfold Zod.scoped; intros ? ?; cbv beta; rewrite ?issues_ap, issues_pure;
  rewrite ?Forall_app; repeat split;
  lazymatch goal with
  | |- Forall _ [] => constructor
  | |- Forall _ (Zod.issues (Zod.field ?k ?sch ?p ?x)) =>
      apply (scoped_field k sch); eauto 10 with scoped
  end.

Section WithFormats.
Context `{Zod.Formats}.

Lemma scoped_progLangSchema : Zod.scoped progLangSchema.
Proof. unfold progLangSchema. scoped_object. Qed.

Lemma scoped_skillsSchema : Zod.scoped skillsSchema.
Proof. unfold skillsSchema. scoped_object. Qed.

Lemma scoped_projectSchema : Zod.scoped projectSchema.
Proof. unfold projectSchema. scoped_object. Qed.

Lemma scoped_profilePictureSchema : Zod.scoped profilePictureSchema.
Proof. unfold profilePictureSchema. eauto 10 with scoped. Qed.

Lemma scoped_courseSchema : Zod.scoped courseSchema.
Proof. unfold courseSchema. eauto with scoped. Qed.

(** Validating the whole document reports, at [semester], what the
    semester schema reports for the semester text, and nothing else. *)
Lemma semester_issues_in_document (d : FormValues) :
  Zod.issues_at [Zod.Key "semester"] (FormSchema [] d)
  = Zod.issues (semesterSchema [Zod.Key "semester"] (semester d)).
Proof.
  pose proof scoped_progLangSchema. pose proof scoped_skillsSchema.
  pose proof scoped_projectSchema. pose proof scoped_profilePictureSchema.
  pose proof scoped_courseSchema.
  unfold Zod.issues_at, FormSchema. rewrite !issues_ap, issues_pure.
  rewrite !filter_app.
  set (own := filter _ (Zod.issues (Zod.field "semester" _ _ _))).
  rewrite !issues_at_other_key by (eauto 10 with scoped || done).
  rewrite !app_nil_r, ?app_nil_l. subst own. unfold Zod.field.
  apply filter_same_path. apply (run_checks_path _ ([] ++ [Zod.Key "semester"])).
Qed.

(** The semester schema accepts exactly the texts of its pattern. *)
Lemma semesterSchema_issues (p : list Zod.Seg) (s : string) :
  Zod.issues (semesterSchema p s) = [] ↔ Regex.test semester_re s = true.
Proof.
  unfold semesterSchema, Zod.string_, Zod.run_checks. simpl.
  destruct (Regex.test semester_re s) eqn:Ht; [|done].
  destruct s; [done|]. done.
Qed.

Lemma semester_passes_iff (d : FormValues) :
  semester_passes d = Regex.test semester_re (semester d).
Proof.
  unfold semester_passes. rewrite semester_issues_in_document.
  destruct (Regex.test semester_re (semester d)) eqn:Ht.
  - apply bool_decide_true. by apply semesterSchema_issues.
  - apply bool_decide_false. rewrite semesterSchema_issues. congruence.
Qed.

(** With a file list in the picture field, the first issue of the
    document is the one of the picture schema's first check, and it is the
    only issue at or below [profilePicture]. *)
Lemma picture_issue_first (d : FormValues) (files : list Dom.File) :
  profilePicture d = Dom.FileList files →
  ∃ others,
    Zod.issues (FormSchema [] d)
    = Zod.mkIssue [Zod.Key "profilePicture"; Zod.Key "profilePicture"]
        (Some "Please upload a file.") :: others
    ∧ Forall (λ i, ¬ [Zod.Key "profilePicture"] `prefix_of` Zod.path i)
        others.
Proof.
  intros Hpic.
  pose proof scoped_progLangSchema. pose proof scoped_skillsSchema.
  pose proof scoped_projectSchema. pose proof scoped_courseSchema.
  unfold FormSchema.
  rewrite !issues_ap, issues_pure, <- !(assoc_L (++)).
  unfold Zod.field at 1. rewrite Hpic. eexists. split; [reflexivity|].
  rewrite !Forall_app. repeat split;
    apply not_under_other_key; first [done | eauto 10 with scoped].
Qed.

End WithFormats.

End StrictFacts.

(** C9, the form of components/StudentPortfolioForm.tsx evaluated.  The
    picture field of the form holds the file list of the input, and
    [FormSchema] validates that field with [profilePictureSchema], an object
    schema that looks for the files under a key [profilePicture] inside
    the field.  So with any file chosen, of whatever size and type, the
    document is refused: its first issue is [Please upload a file.] at
    [profilePicture.profilePicture], no other issue is raised at or below
    [profilePicture] (no size error and no type error), the handler does
    not run, and below [profilePicture] the error object shows this one
    entry.  The size and the type of the first file are looked at only
    when the schema is given an object that holds the file list under
    [profilePicture]: then the size error is raised above 2MB and the type
    error for a type other than JPEG and PNG. *)
Theorem profilePicture_checks_are_not_reached `{Zod.Formats}
    (d : PortfolioStrict.FormValues) (f : Dom.File) (rest : list Dom.File) :
  PortfolioStrict.profilePicture d = Dom.FileList (f :: rest) →
  (∃ others,
     Zod.issues (PortfolioStrict.FormSchema [] d)
     = Zod.mkIssue [Zod.Key "profilePicture"; Zod.Key "profilePicture"]
         (Some "Please upload a file.") :: others
     ∧ Forall (λ i, ¬ [Zod.Key "profilePicture"] `prefix_of` Zod.path i)
         others)
  ∧ Rhf.effects (PortfolioStrict.submit d) = []
  ∧ (∀ p, [Zod.Key "profilePicture"] `prefix_of` p →
          Rhf.errors (PortfolioStrict.submit d) !! p
          = if decide (p = [Zod.Key "profilePicture"; Zod.Key "profilePicture"])
            then Some (Some "Please upload a file.")
            else None)
  ∧ PortfolioStrict.profilePictureSchema [Zod.Key "profilePicture"]
      (Dom.Object [("profilePicture", PortfolioStrict.profilePicture d)])
    = Zod.mkParsed (Some (f :: rest))
        ((if (Dom.size f <=? 2 * 1024 * 1024)%N then []
          else [Zod.mkIssue
                  [Zod.Key "profilePicture"; Zod.Key "profilePicture"]
                  (Some "File size must be less than 2MB.")])
         ++ (if bool_decide (Dom.type f ∈ ["image/jpeg"; "image/png"]) then []
             else [Zod.mkIssue
                     [Zod.Key "profilePicture"; Zod.Key "profilePicture"]
                     (Some "Invalid file type. Only JPEG and PNG are allowed.")])).
Proof.
  intros Hpic.
  destruct (StrictFacts.picture_issue_first d (f :: rest) Hpic)
    as (others & Hiss & Hothers).
  split; [by exists others|].
  split; [|split].
  - unfold PortfolioStrict.submit.
    by rewrite RhfFacts.handleSubmit_invalid by (by rewrite Hiss).
  - unfold PortfolioStrict.submit.
    rewrite RhfFacts.handleSubmit_invalid by (by rewrite Hiss).
    rewrite Hiss. intros p Hp. cbn [Rhf.errors].
    rewrite RhfFacts.toErrors_lookup, filter_cons. cbn [Zod.path].
    assert (Hnone : filter (λ i, Zod.path i = p) others = []).
    { clear Hiss. induction Hothers as [|i others Hi _ IH]; [done|].
      rewrite filter_cons_False; [done|]. intros Hip. by rewrite Hip in Hi. }
    rewrite Hnone.
    destruct (decide ([Zod.Key "profilePicture"; Zod.Key "profilePicture"] = p))
      as [<-|Hne].
    + by rewrite decide_True.
    + by rewrite decide_False.
  - rewrite Hpic.
    unfold PortfolioStrict.profilePictureSchema, Zod.object_, Zod.prop,
      Zod.refine, Zod.custom, PortfolioStrict.size_ok, PortfolioStrict.type_ok.
    simpl. unfold Js.includes.
    change (PortfolioStrict.maxSize) with (2 * 1024 * 1024)%N.
    change (PortfolioStrict.fileFormat) with ["image/jpeg"; "image/png"].
    destruct (Dom.size f <=? 2 * 1024 * 1024)%N; simpl;
      destruct (bool_decide (Dom.type f ∈ ["image/jpeg"; "image/png"])); done.
Qed.

Lemma profilePicture_checks_are_not_reached_witness :
  Rhf.errors (@PortfolioStrict.submit Samples.formats Samples.strict_profile)
    !! [Zod.Key "profilePicture"; Zod.Key "profilePicture"]
  = Some (Some "Please upload a file.")
  ∧ Rhf.effects
      (@PortfolioStrict.submit Samples.formats
         (PortfolioStrict.with_profilePicture
            (Dom.FileList [Samples.jpeg_3MB]) Samples.strict_profile))
    = []
  ∧ Rhf.errors
      (@PortfolioStrict.submit Samples.formats
         (PortfolioStrict.with_profilePicture
            (Dom.FileList [Samples.gif_1KB]) Samples.strict_profile))
      !! [Zod.Key "profilePicture"]
    = None
  ∧ PortfolioStrict.profilePictureSchema [Zod.Key "profilePicture"]
      (Dom.Object [("profilePicture", Dom.FileList [Samples.jpeg_3MB])])
    = Zod.mkParsed (Some [Samples.jpeg_3MB])
        [Zod.mkIssue [Zod.Key "profilePicture"; Zod.Key "profilePicture"]
           (Some "File size must be less than 2MB.")]
  ∧ PortfolioStrict.profilePictureSchema [Zod.Key "profilePicture"]
      (Dom.Object [("profilePicture", Dom.FileList [Samples.png_1MB])])
    = Zod.mkParsed (Some [Samples.png_1MB]) [].
Proof.
  split; [|split; [|split; [|split]]].
  - exact (proj1 (proj2 (proj2 (@profilePicture_checks_are_not_reached
                                  Samples.formats Samples.strict_profile
                                  _ [] eq_refl)))
             [Zod.Key "profilePicture"; Zod.Key "profilePicture"]
             (prefix_cons _ [] [Zod.Key "profilePicture"] (prefix_nil _))).
  - exact (proj1 (proj2 (@profilePicture_checks_are_not_reached Samples.formats
                           (PortfolioStrict.with_profilePicture
                              (Dom.FileList [Samples.jpeg_3MB])
                              Samples.strict_profile)
                           Samples.jpeg_3MB [] eq_refl))).
  - exact (proj1 (proj2 (proj2 (@profilePicture_checks_are_not_reached
                                  Samples.formats
                                  (PortfolioStrict.with_profilePicture
                                     (Dom.FileList [Samples.gif_1KB])
                                     Samples.strict_profile)
                                  Samples.gif_1KB [] eq_refl)))
             [Zod.Key "profilePicture"] (reflexivity _)).
  - exact (proj2 (proj2 (proj2 (@profilePicture_checks_are_not_reached
                                  Samples.formats
                                  (PortfolioStrict.with_profilePicture
                                     (Dom.FileList [Samples.jpeg_3MB])
                                     Samples.strict_profile)
                                  Samples.jpeg_3MB [] eq_refl)))).
  - exact (proj2 (proj2 (proj2 (@profilePicture_checks_are_not_reached
                                  Samples.formats Samples.strict_profile
                                  Samples.png_1MB [] eq_refl)))).
Defined.

(** The texts the semester pattern accepts, all of them: eight for the
    B.Sc., four for the M.Sc., and for MCA the course name alone. *)
Lemma semester_accepted_texts (s : string) :
  Regex.test PortfolioStrict.semester_re s = true
  ↔ s ∈ [ "B.Sc.(Hons.) Comp. Appls.: I"; "B.Sc.(Hons.) Comp. Appls.: II";
          "B.Sc.(Hons.) Comp. Appls.: III"; "B.Sc.(Hons.) Comp. Appls.: IV";
          "B.Sc.(Hons.) Comp. Appls.: V"; "B.Sc.(Hons.) Comp. Appls.: VI";
          "B.Sc.(Hons.) Comp. Appls.: VII"; "B.Sc.(Hons.) Comp. Appls.: VIII";
          "MCA";
          "M.Sc. Cyber Security: I"; "M.Sc. Cyber Security: II";
          "M.Sc. Cyber Security: III"; "M.Sc. Cyber Security: IV" ].
Proof. apply RegexFacts.test_words. Qed.

(** C1, the semester pattern evaluated.  [MCA: V] is refused, as the
    claim says.  [MCA: II] is refused as well: in the pattern's second
    group the bar separates [MCA] from
    [M\.Sc\. Cyber Security: (I|II|III|IV)], so the only MCA text the
    pattern accepts is the bare [MCA].  Validating a whole document whose
    course is MCA and whose semester reads [MCA: II] reports the pattern's
    message at [semester]. *)
Theorem semester_MCA_II_is_refused `{Zod.Formats}
    (d : PortfolioStrict.FormValues) :
  Regex.test PortfolioStrict.semester_re "MCA: V" = false
  ∧ Regex.test PortfolioStrict.semester_re "MCA: II" = false
  ∧ Regex.test PortfolioStrict.semester_re "MCA" = true
  ∧ Regex.test PortfolioStrict.semester_re "M.Sc. Cyber Security: II" = true
  ∧ Zod.issues_at [Zod.Key "semester"]
      (PortfolioStrict.FormSchema []
         (PortfolioStrict.with_course (Some "MCA")
            (PortfolioStrict.with_semester "MCA: II" d)))
    = [Zod.mkIssue [Zod.Key "semester"]
         (Some "Invalid semester for the selected course")]
  ∧ PortfolioStrict.semester_passes
      (PortfolioStrict.with_course (Some "MCA")
         (PortfolioStrict.with_semester "MCA: II" d))
    = false.
Proof.
  repeat split; try reflexivity.
  - by rewrite StrictFacts.semester_issues_in_document.
  - by rewrite StrictFacts.semester_passes_iff.
Qed.

(** ** Enrollment and faculty numbers *)

(** C3, as amended.  In the variant of part_000 the enrollment number is
    upper-cased by the runtime and then matched: when the upper-cased text
    matches [^[A-Z]{2}[0-9]{4}$] (two capitals and four digits) it is the
    value handed on, and it is upper case; otherwise validation fails with
    the error named [Invalid Enrollment number].  The faculty number
    likewise, with [^[0-9]{2}[A-Z]{5}[0-9]{3}$] (two digits, five capitals,
    three digits) and [Invalid Faculty number].  A text typed in ASCII is
    upper-cased unit by unit, so it is accepted exactly when it has the
    shape of the pattern with letters of either case.  The variant of
    components/StudentPortfolioForm.tsx matches the text as typed: it
    hands on an accepted text unchanged (it is upper case already) and
    raises the same named error for every other text. *)
Theorem enrollNo_facultyNo_rules `{Js.Casing} (p : list Zod.Seg) (s : string) :
  (if Regex.test Portfolio.enrollNo_re (Js.toUpperCase s)
   then Portfolio.enrollNoSchema p s
        = Zod.mkParsed (Some (Js.toUpperCase s)) []
   else Zod.issues (Portfolio.enrollNoSchema p s)
        = [Zod.mkIssue p (Some "Invalid Enrollment number")])
  ∧ (if Regex.test Portfolio.facultyNo_re (Js.toUpperCase s)
     then Portfolio.facultyNoSchema p s
          = Zod.mkParsed (Some (Js.toUpperCase s)) []
     else Zod.issues (Portfolio.facultyNoSchema p s)
          = [Zod.mkIssue p (Some "Invalid Faculty number")])
  ∧ Js.toUpperCase (Js.toUpperCase s) = Js.toUpperCase s
  ∧ (∀ t, Regex.test Portfolio.enrollNo_re t
          = Shape.fits Shape.enrollNo (Js.chars t))
  ∧ (∀ t, Regex.test Portfolio.facultyNo_re t
          = Shape.fits Shape.facultyNo (Js.chars t))
  ∧ (Js.ascii_text s = true →
     Js.chars (Js.toUpperCase s) = Js.upper_char <$> Js.chars s
     ∧ Regex.test Portfolio.enrollNo_re (Js.toUpperCase s)
       = Shape.fits Shape.enrollNo_typed (Js.chars s)
     ∧ Regex.test Portfolio.facultyNo_re (Js.toUpperCase s)
       = Shape.fits Shape.facultyNo_typed (Js.chars s))
  ∧ (if Regex.test PortfolioStrict.enrollNo_re s
     then PortfolioStrict.enrollNoSchema p s = Zod.mkParsed (Some s) []
          ∧ Js.toUpperCase s = s
     else Zod.mkIssue p (Some "Invalid Enrollment number")
          ∈ Zod.issues (PortfolioStrict.enrollNoSchema p s))
  ∧ (if Regex.test PortfolioStrict.facultyNo_re s
     then PortfolioStrict.facultyNoSchema p s = Zod.mkParsed (Some s) []
          ∧ Js.toUpperCase s = s
     else Zod.mkIssue p (Some "Invalid Faculty number")
          ∈ Zod.issues (PortfolioStrict.facultyNoSchema p s)).
Proof.
  split; [|split; [|split; [|split; [|split; [|split; [|split]]]]]].
  - unfold Portfolio.enrollNoSchema, Zod.refine, Zod.transform, Zod.string_.
    simpl. by destruct (Regex.test _ _).
  - unfold Portfolio.facultyNoSchema, Zod.refine, Zod.transform, Zod.string_.
    simpl. by destruct (Regex.test _ _).
  - apply Js.toUpperCase_twice.
  - apply ShapeFacts.test_enrollNo.
  - apply ShapeFacts.test_facultyNo.
  - intros Hascii.
    pose proof (JsFacts.chars_toUpperCase s Hascii) as Hup.
    split; [done|].
    rewrite ShapeFacts.test_enrollNo, ShapeFacts.test_facultyNo, Hup.
    by rewrite ShapeFacts.fits_upper_enrollNo, ShapeFacts.fits_upper_facultyNo.
  - unfold PortfolioStrict.enrollNoSchema, Zod.string_, Zod.run_checks. simpl.
    destruct (Regex.test PortfolioStrict.enrollNo_re s) eqn:Ht.
    + split; [destruct s; [discriminate Ht | done]|].
      exact (JsFacts.test_upper_fixed _ _ JsFacts.enrollNo_alphabet_upper Ht).
    + elem_of_literal.
  - unfold PortfolioStrict.facultyNoSchema, Zod.string_, Zod.run_checks. simpl.
    destruct (Regex.test PortfolioStrict.facultyNo_re s) eqn:Ht.
    + split; [destruct s; [discriminate Ht | done]|].
      exact (JsFacts.test_upper_fixed _ _ JsFacts.facultyNo_alphabet_upper Ht).
    + elem_of_literal.
Qed.

Lemma enrollNo_facultyNo_rules_witness :
  @Portfolio.enrollNoSchema Samples.casing [Zod.Key "enrollNo"] "gk1234"
  = Zod.mkParsed (Some "GK1234") []
  ∧ @Portfolio.facultyNoSchema Samples.casing [Zod.Key "facultyNo"] "21cobea123"
    = Zod.mkParsed (Some "21COBEA123") []
  ∧ @Portfolio.enrollNoSchema Samples.casing [Zod.Key "enrollNo"]
      (String "223" "1234")
    = Zod.mkParsed (Some "SS1234") []
  ∧ Regex.test Portfolio.enrollNo_re (@Js.toUpperCase Samples.casing "gk1234")
    = Shape.fits Shape.enrollNo_typed (Js.chars "gk1234")
  ∧ Js.chars (@Js.toUpperCase Samples.casing "21cobea123")
    = ["2"; "1"; "C"; "O"; "B"; "E"; "A"; "1"; "2"; "3"]%char.
Proof.
  split; [|split; [|split; [|split]]].
  - exact (proj1 (@enrollNo_facultyNo_rules Samples.casing
                    [Zod.Key "enrollNo"] "gk1234")).
  - exact (proj1 (proj2 (@enrollNo_facultyNo_rules Samples.casing
                           [Zod.Key "facultyNo"] "21cobea123"))).
  - exact (proj1 (@enrollNo_facultyNo_rules Samples.casing
                    [Zod.Key "enrollNo"] (String "223" "1234"))).
  - exact (proj1 (proj2 (proj1 (proj2 (proj2 (proj2 (proj2 (proj2
             (@enrollNo_facultyNo_rules Samples.casing [] "gk1234"))))))
             eq_refl))).
  - exact (proj1 (proj1 (proj2 (proj2 (proj2 (proj2 (proj2
             (@enrollNo_facultyNo_rules Samples.casing [] "21cobea123"))))))
             eq_refl)).
Defined.

(** C3 as stated does not hold in the variant of
    components/StudentPortfolioForm.tsx: [gk1234] upper-cases to a text
    that matches the pattern, and is refused. *)
Lemma enrollNo_lower_case_refused_as_typed :
  Regex.test PortfolioStrict.enrollNo_re
    (@Js.toUpperCase Samples.casing "gk1234") = true
  ∧ Zod.issues (PortfolioStrict.enrollNoSchema [Zod.Key "enrollNo"] "gk1234")
    = [Zod.mkIssue [Zod.Key "enrollNo"] (Some "Invalid Enrollment number")]
  ∧ @Portfolio.enrollNoSchema Samples.casing [Zod.Key "enrollNo"] "gk1234"
    = Zod.mkParsed (Some "GK1234") [].
Proof. repeat split. Qed.

(** ** Submitting the profile (variant of part_000) *)

Module PortfolioFacts.
Import ZodFacts Portfolio.

Section WithFormats.
Context `{Zod.Formats} `{Js.Casing}.

(** An issue-free row is handed on as it is. *)
Lemma progLang_value (p : list Zod.Seg) (x : ProgLang) :
  Zod.issues (progLangSchema p x) = [] → Zod.value (progLangSchema p x) = Some x.
Proof.
  destruct x as [n f]. unfold progLangSchema, Zod.field, Zod.enum_. simpl.
  destruct (Js.includes FluencyEnum f); simpl; [done|].
  by intros [_ ?]%app_eq_nil.
Qed.

Lemma skill_value (p : list Zod.Seg) (x : Skill) :
  Zod.issues (skillsSchema p x) = [] → Zod.value (skillsSchema p x) = Some x.
Proof.
  destruct x as [n f]. unfold skillsSchema, Zod.field, Zod.enum_. simpl.
  by destruct (Js.includes FluencyEnum f).
Qed.

Lemma project_value (p : list Zod.Seg) (x : Project) :
  Zod.issues (projectSchema p x) = [] → Zod.value (projectSchema p x) = Some x.
Proof.
  destruct x as [n ds t l du]. unfold projectSchema, Zod.field. simpl.
  by destruct l.
Qed.

Lemma achievement_value (p : list Zod.Seg) (x : Achievement) :
  Zod.issues (achievementSchema p x) = [] →
  Zod.value (achievementSchema p x) = Some x.
Proof. by destruct x. Qed.

Lemma number_value (r : Regex.re) (m : option string) (p : list Zod.Seg)
    (s : string) :
  Zod.value
    (Zod.refine (Regex.test r) m (Zod.transform Js.toUpperCase (Zod.string_ []))
       p s)
  = Some (Js.toUpperCase s).
Proof. unfold Zod.refine, Zod.transform. simpl. by destruct (Regex.test _ _). Qed.

Lemma phone_value (p : list Zod.Seg) (s : string) :
  Zod.value
    (Zod.refine (Regex.test phone_re) (Some "Invalid phone number")
       (Zod.string_ []) p s)
  = Some s.
Proof. unfold Zod.refine. simpl. by destruct (Regex.test _ _). Qed.

Lemma course_value (p : list Zod.Seg) (c : option string) :
  Zod.issues (Zod.required courseSchema p c) = [] →
  Zod.value (Some <$$> Zod.required courseSchema p c) = Some c.
Proof.
  destruct c as [c|]; [|done]. unfold courseSchema, Zod.enum_. simpl.
  by destruct (Js.includes CourseEnum c).
Qed.

Lemma picture_value (p : list Zod.Seg) (f : option Dom.File) :
  Zod.value (Zod.optional Zod.instanceof p f) = Some f.
Proof. by destruct f. Qed.

(** When no rule fails, parsing hands on the document with the two numbers
    upper-cased. *)
Lemma FormSchema_value (d : FormData) :
  Zod.issues (FormSchema [] d) = [] →
  Zod.value (FormSchema [] d) = Some (normalized d).
Proof.
  unfold FormSchema, normalized. rewrite !issues_ap, issues_pure. intros Hiss.
  repeat match goal with
         | H : _ ++ _ = [] |- _ => apply app_eq_nil in H as [H ?]
         end.
  repeat lazymatch goal with
         | |- Zod.value (_ <*> _) = _ => eapply value_ap
         end.
  all: unfold Zod.field in *.
  all: first
    [ reflexivity
    | apply picture_value
    | apply number_value
    | apply phone_value
    | by apply course_value
    | apply array_value; [apply progLang_value | assumption]
    | apply array_value; [apply skill_value | assumption]
    | apply array_value; [apply project_value | assumption]
    | apply array_value; [apply achievement_value | assumption] ].
Qed.

End WithFormats.

End PortfolioFacts.

(** C7, as amended.  Submitting validates the whole document: the rules of
    every key and, for the four sub-lists, the rules of every row at its
    index path (the schema holds no rule that relates two fields).  All
    issues are collected.  When there is one, the handler is not called and
    the error object has an entry at exactly the paths where an issue was
    raised, showing the first issue raised there; when there is none, the handler receives the document with the
    two numbers upper-cased.  In particular a document whose only fault is
    an empty [about] is blocked with the single error path [about], and
    once [about] alone is corrected the submit goes through. *)
Theorem submit_is_gated_by_validation `{Zod.Formats} `{Js.Casing}
    (d : Portfolio.FormData) (a : string) :
  Zod.issues (Portfolio.FormSchema [] d)
  = concat
      [ Zod.issues (Zod.optional Zod.instanceof [Zod.Key "profilePicture"]
                      (Portfolio.profilePicture d));
        Zod.run_checks [Zod.nonempty (Some "This field is required")]
          [Zod.Key "name"] (Portfolio.name d);
        Zod.run_checks [Zod.nonempty (Some "This field is required")]
          [Zod.Key "title"] (Portfolio.title d);
        Zod.run_checks [Zod.max 200 (Some "Not more than 200 characters");
                        Zod.nonempty (Some "This field is required")]
          [Zod.Key "about"] (Portfolio.about d);
        Zod.run_checks [Zod.date (Some "Invalid date");
                        Zod.min 1 (Some "This field is required")]
          [Zod.Key "dob"] (Portfolio.dob d);
        Zod.run_checks [Zod.nonempty (Some "This field is required")]
          [Zod.Key "address"] (Portfolio.address d);
        Zod.issues (Portfolio.enrollNoSchema [Zod.Key "enrollNo"]
                      (Portfolio.enrollNo d));
        Zod.issues (Portfolio.facultyNoSchema [Zod.Key "facultyNo"]
                      (Portfolio.facultyNo d));
        Zod.issues (Zod.required Portfolio.courseSchema [Zod.Key "course"]
                      (Portfolio.course d));
        Zod.run_checks [Zod.nonempty (Some "Semester is Required")]
          [Zod.Key "semester"] (Portfolio.semester d);
        concat (imap (λ i x, Zod.issues (Portfolio.progLangSchema
                                           [Zod.Key "progLangs"; Zod.Idx i] x))
                  (Portfolio.progLangs d));
        concat (imap (λ i x, Zod.issues (Portfolio.skillsSchema
                                           [Zod.Key "skills"; Zod.Idx i] x))
                  (Portfolio.skills d));
        concat (imap (λ i x, Zod.issues (Portfolio.projectSchema
                                           [Zod.Key "projects"; Zod.Idx i] x))
                  (Portfolio.projects d));
        concat (imap (λ i x, Zod.issues (Portfolio.achievementSchema
                                           [Zod.Key "achievements"; Zod.Idx i] x))
                  (Portfolio.achievements d));
        Zod.run_checks [Zod.email None;
                        Zod.nonempty (Some "This field is required")]
          [Zod.Key "email"] (Portfolio.email d);
        Zod.issues (Zod.refine (Regex.test Portfolio.phone_re)
                      (Some "Invalid phone number") (Zod.string_ [])
                      [Zod.Key "phone"] (Portfolio.phone d));
        Zod.run_checks [Zod.url None] [Zod.Key "github"] (Portfolio.github d);
        Zod.run_checks [Zod.url None] [Zod.Key "linkedin"]
          (Portfolio.linkedin d) ]
  ∧ (Zod.issues (Portfolio.FormSchema [] d) ≠ [] →
     Rhf.effects (Portfolio.submit d) = []
     ∧ (∀ p, is_Some (Rhf.errors (Portfolio.submit d) !! p)
             ↔ ∃ i, i ∈ Zod.issues (Portfolio.FormSchema [] d) ∧ Zod.path i = p)
     ∧ (∀ p, Rhf.errors (Portfolio.submit d) !! p
             = Zod.message
               <$> head (Zod.issues_at p (Portfolio.FormSchema [] d))))
  ∧ (Zod.issues (Portfolio.FormSchema [] d) = [] →
     Portfolio.submit d
     = Rhf.mkOutcome ∅ [Portfolio.ConsoleLog (Portfolio.normalized d)])
  ∧ (Zod.issues (Portfolio.FormSchema [] (Portfolio.with_about a d)) = [] →
     Portfolio.submit (Portfolio.with_about "" d)
     = Rhf.mkOutcome
         {[ [Zod.Key "about"] := Some "This field is required" ]} []
     ∧ Portfolio.submit (Portfolio.with_about a (Portfolio.with_about "" d))
       = Rhf.mkOutcome ∅
           [Portfolio.ConsoleLog
              (Portfolio.normalized (Portfolio.with_about a d))]).
Proof.
  assert (Hok : ∀ d', Zod.issues (Portfolio.FormSchema [] d') = [] →
                 Portfolio.submit d'
                 = Rhf.mkOutcome ∅
                     [Portfolio.ConsoleLog (Portfolio.normalized d')]).
  { intros d' Hd'. unfold Portfolio.submit.
    by rewrite (RhfFacts.handleSubmit_valid _ _ _ (Portfolio.normalized d') Hd')
      by (by apply PortfolioFacts.FormSchema_value). }
  split; [|split; [|split]].
  - unfold Portfolio.FormSchema.
    rewrite !ZodFacts.issues_ap, ZodFacts.issues_pure.
    unfold Zod.field. rewrite !ZodFacts.array_issues.
    cbn [concat]. rewrite app_nil_r, <- !(assoc_L (++)). reflexivity.
  - intros Hbad. unfold Portfolio.submit.
    rewrite RhfFacts.handleSubmit_invalid by done.
    cbn [Rhf.effects Rhf.errors].
    split; [done|]. split; intros p.
    + apply RhfFacts.toErrors_is_Some.
    + apply RhfFacts.toErrors_lookup.
  - apply Hok.
  - intros Hgood. split; [|by apply Hok].
    assert (Hone :
      Zod.issues (Portfolio.FormSchema [] (Portfolio.with_about "" d))
      = [Zod.mkIssue [Zod.Key "about"] (Some "This field is required")]).
    { revert Hgood. unfold Portfolio.FormSchema.
      rewrite !ZodFacts.issues_ap, !ZodFacts.issues_pure.
      cbn [Portfolio.with_about Portfolio.profilePicture Portfolio.name
           Portfolio.title Portfolio.about Portfolio.dob Portfolio.address
           Portfolio.enrollNo Portfolio.facultyNo Portfolio.course
           Portfolio.semester Portfolio.progLangs Portfolio.skills
           Portfolio.projects Portfolio.achievements Portfolio.email
           Portfolio.phone Portfolio.github Portfolio.linkedin].
      intros Hgood.
      repeat match goal with
             | H : _ ++ _ = [] |- _ => apply app_eq_nil in H as [H ?]
             end.
      repeat match goal with
             | H : Zod.issues ?r = [] |- _ => rewrite H; clear H
             end.
      reflexivity. }
    unfold Portfolio.submit.
    rewrite RhfFacts.handleSubmit_invalid by (by rewrite Hone).
    rewrite Hone. simpl. by rewrite insert_empty.
Qed.

Lemma submit_is_gated_by_validation_witness :
  @Portfolio.submit Samples.formats Samples.casing
    (Portfolio.with_about "" Samples.profile)
  = Rhf.mkOutcome {[ [Zod.Key "about"] := Some "This field is required" ]} []
  ∧ @Portfolio.submit Samples.formats Samples.casing
      (Portfolio.with_about "I build small web tools."
         (Portfolio.with_about "" Samples.profile))
    = Rhf.mkOutcome ∅
        [Portfolio.ConsoleLog
           (@Portfolio.normalized Samples.casing
              (Portfolio.with_about "I build small web tools."
                 Samples.profile))].
Proof.
  refine (proj2 (proj2 (proj2
    (@submit_is_gated_by_validation Samples.formats Samples.casing
       Samples.profile "I build small web tools."))) _).
  vm_compute. reflexivity.
Defined.

(** C7 as stated does not hold where it names a cross-field rule: the
    sample profile selects MCA and its semester reads [MCA: V], which the
    dependent-semester rule of the specification refuses, yet every rule of
    the schema passes and the document is handed to the submit handler. *)
Lemma submit_runs_no_cross_field_rule :
  Portfolio.course Samples.profile = Some "MCA"
  ∧ Portfolio.semester Samples.profile = "MCA: V"
  ∧ SpecWords.semester_fits_course "MCA" "MCA: V" = false
  ∧ @Portfolio.submit Samples.formats Samples.casing Samples.profile
    = Rhf.mkOutcome ∅
        [Portfolio.ConsoleLog
           (@Portfolio.normalized Samples.casing Samples.profile)].
Proof.
  split; [reflexivity|]. split; [reflexivity|]. split; [reflexivity|].
  unfold Portfolio.submit.
  rewrite (RhfFacts.handleSubmit_valid _ _ _
             (@Portfolio.normalized Samples.casing Samples.profile));
    [reflexivity | vm_compute; reflexivity ..].
Qed.

(** ** Lengths and character classes of matching texts *)

Module BoundsFacts.
Import Regex RegexBounds.

Lemma length_append (s t : string) :
  String.length (s +:+ t) = String.length s + String.length t.
Proof.
  induction s as [|c s IH]; [done|].
  rewrite RegexFacts.append_cons. simpl. by rewrite IH.
Qed.

Lemma length_chars (s : string) : length (Js.chars s) = String.length s.
Proof. induction s as [|c s IH]; simpl; [done|]. by rewrite IH. Qed.

(** A matching text is no shorter than [min_len] and no longer than
    [max_len]. *)
Lemma Lang_length (r : re) (s : string) :
  Lang r s →
  ∃ m, min_len r = Some m ∧ m ≤ String.length s ≤ max_len r.
Proof.
  induction 1 as [| | |r1 r2 s1 s2 _ (m1 & E1 & B1) _ (m2 & E2 & B2)
                  |r1 r2 s _ (m & E & B)|r1 r2 s _ (m & E & B)]; simpl.
  - exists 0. split; [done|lia].
  - exists 1. split; [done|lia].
  - exists 1. split; [done|lia].
  - exists (m1 + m2). rewrite E1, E2, length_append. split; [done|lia].
  - rewrite E. destruct (min_len r2) as [n|]; eexists; (split; [done|lia]).
  - rewrite E. destruct (min_len r1) as [n|]; eexists; (split; [done|lia]).
Qed.

Lemma test_length (r : re) (s : string) (m : nat) :
  test r s = true → min_len r = Some m → m ≤ String.length s ≤ max_len r.
Proof.
  intros Ht%RegexFacts.test_spec Hm.
  destruct (Lang_length _ _ Ht) as (m' & Hm' & B). congruence.
Qed.

Lemma alike_deriv (x : ascii) (r : re) (c c' : ascii) :
  alike r c c' = true → alike (deriv x r) c c' = true.
Proof.
  induction r as [| |a|rs|r1 IH1 r2 IH2|r1 IH1 r2 IH2]; simpl; try done.
  - intros _. by destruct (bool_decide (x = a)).
  - intros _. by destruct (in_class rs x).
  - intros [H1 H2]%andb_true_iff.
    destruct (nullable r1); simpl; rewrite ?IH1, ?IH2, ?H2; done.
  - intros [H1 H2]%andb_true_iff. by rewrite IH1, IH2.
Qed.

(** Characters that the leaves do not tell apart have the same
    derivative. *)
Lemma deriv_alike (r : re) (c c' : ascii) :
  alike r c c' = true → deriv c r = deriv c' r.
Proof.
  induction r as [| |a|rs|r1 IH1 r2 IH2|r1 IH1 r2 IH2]; simpl; try done.
  - intros H%bool_decide_eq_true. by rewrite H.
  - intros H%bool_decide_eq_true. by rewrite H.
  - intros [H1 H2]%andb_true_iff. by rewrite IH1, IH2.
  - intros [H1 H2]%andb_true_iff. by rewrite IH1, IH2.
Qed.

(** A text of digits is matched like the text of as many zeros, by a
    pattern that treats all digits alike. *)
Lemma test_digits (s : string) :
  ∀ r, (∀ c, is_digit c = true → alike r c "0" = true) →
       Forall (λ c, is_digit c = true) (Js.chars s) →
       test r s = test r (zeros (String.length s)).
Proof.
  induction s as [|c s IH]; intros r Hr Hs; simpl; [done|].
  apply Forall_cons in Hs as [Hc Hs].
  rewrite (deriv_alike r c "0") by auto.
  apply IH; [|done]. intros c' Hc'. apply alike_deriv. auto.
Qed.

Lemma phone_digits_alike (c : ascii) :
  is_digit c = true → alike Portfolio.phone_re c "0" = true.
Proof. destruct c as [[] [] [] [] [] [] [] []]; vm_compute; congruence. Qed.

Lemma strict_phone_digits_alike (c : ascii) :
  is_digit c = true → alike PortfolioStrict.phone_re c "0" = true.
Proof. destruct c as [[] [] [] [] [] [] [] []]; vm_compute; congruence. Qed.

Lemma strict_phone_alphabet (c : ascii) :
  alphabet PortfolioStrict.phone_re c = true → is_digit c = true.
Proof. destruct c as [[] [] [] [] [] [] [] []]; vm_compute; congruence. Qed.

Lemma phone_alphabet (c : ascii) :
  alphabet Portfolio.phone_re c = true →
  is_digit c = true ∨ c = "+"%char ∨ c = "-"%char ∨ c = " "%char.
Proof.
  destruct c as [[] [] [] [] [] [] [] []]; vm_compute; intros H;
    first [discriminate H | by left | by right; left
          | by right; right; left | by right; right; right].
Qed.

End BoundsFacts.

(** ** Phone numbers *)

(** The phone rule of part_000, [/^(\+?\d{1,3}[- ]?)?\d{10}$/]: the field
    passes exactly when the pattern matches; a matching text has 10 to 15
    characters, all of them digits, [+], [-] or a blank; and a text made
    of digits only passes exactly when it has 10, 11, 12 or 13 of them (the
    country code needs neither the plus nor a separator). *)
Theorem phone_accepts_ten_to_thirteen_digits (p : list Zod.Seg) (s : string) :
  (Zod.issues
     (Zod.refine (Regex.test Portfolio.phone_re) (Some "Invalid phone number")
        (Zod.string_ []) p s) = []
   ↔ Regex.test Portfolio.phone_re s = true)
  ∧ (Regex.test Portfolio.phone_re s = true →
     10 ≤ String.length s ≤ 15
     ∧ ∀ c, c ∈ Js.chars s →
            RegexBounds.is_digit c = true
            ∨ c = "+"%char ∨ c = "-"%char ∨ c = " "%char)
  ∧ (Forall (λ c, RegexBounds.is_digit c = true) (Js.chars s) →
     (Regex.test Portfolio.phone_re s = true ↔ 10 ≤ String.length s ≤ 13)).
Proof.
  split; [|split].
  - unfold Zod.refine. simpl. by destruct (Regex.test _ _).
  - intros Ht. split.
    + by apply (BoundsFacts.test_length _ _ 10 Ht).
    + intros c Hc. apply BoundsFacts.phone_alphabet.
      by eapply RegexFacts.test_alphabet.
  - intros Hd.
    rewrite (BoundsFacts.test_digits s _ BoundsFacts.phone_digits_alike Hd).
    generalize (String.length s) as n. intros n.
    destruct (decide (n ≤ 15)) as [Hn|Hn].
    + do 16 (destruct n as [|n];
               [split; [intros H; vm_compute in H; first [discriminate H | lia]
                       |intros H; first [lia | reflexivity]]|]).
      lia.
    + split; [|lia]. intros Ht.
      pose proof (BoundsFacts.test_length _ _ 10 Ht eq_refl) as [_ Hmax].
      assert (Hz : String.length (RegexBounds.zeros n) = n).
      { clear. induction n as [|n IH]; simpl; [done|]. by rewrite IH. }
      rewrite Hz in Hmax.
      change (RegexBounds.max_len Portfolio.phone_re) with 15 in Hmax. lia.
Qed.

Lemma phone_accepts_ten_to_thirteen_digits_witness :
  Regex.test Portfolio.phone_re "919876543210" = true
  ↔ 10 ≤ String.length "919876543210" ≤ 13.
Proof.
  refine (proj2 (proj2 (phone_accepts_ten_to_thirteen_digits [] "919876543210")) _).
  repeat constructor.
Defined.

(** The phone rule of components/StudentPortfolioForm.tsx, [/^\d{10}$/],
    accepts exactly the texts of ten digits, and every text it accepts is
    accepted by the rule of part_000 as well. *)
Theorem strict_phone_is_ten_digits (s : string) :
  (Regex.test PortfolioStrict.phone_re s = true
   ↔ String.length s = 10
     ∧ Forall (λ c, RegexBounds.is_digit c = true) (Js.chars s))
  ∧ (Regex.test PortfolioStrict.phone_re s = true →
     Regex.test Portfolio.phone_re s = true).
Proof.
  assert (Hfwd : Regex.test PortfolioStrict.phone_re s = true →
                 String.length s = 10
                 ∧ Forall (λ c, RegexBounds.is_digit c = true) (Js.chars s)).
  { intros Ht. split.
    - pose proof (BoundsFacts.test_length _ _ 10 Ht eq_refl) as Hb.
      change (RegexBounds.max_len PortfolioStrict.phone_re) with 10 in Hb. lia.
    - apply Forall_forall. intros c Hc.
      apply BoundsFacts.strict_phone_alphabet.
      by eapply RegexFacts.test_alphabet. }
  split; [split; [done|]|].
  - intros [Hlen Hd].
    rewrite (BoundsFacts.test_digits s _ BoundsFacts.strict_phone_digits_alike Hd).
    by rewrite Hlen.
  - intros [Hlen Hd]%Hfwd.
    rewrite (BoundsFacts.test_digits s _ BoundsFacts.phone_digits_alike Hd).
    by rewrite Hlen.
Qed.

Lemma strict_phone_is_ten_digits_witness :
  Regex.test Portfolio.phone_re "9876543210" = true.
Proof.
  refine (proj2 (strict_phone_is_ten_digits "9876543210") _). reflexivity.
Defined.

(** ** The login form as a whole *)

(** Submitting the login form runs the handler, and with it the request,
    exactly when the upper-cased enrollment number matches its pattern and
    the password has at least six characters; the handler then receives
    the upper-cased number with the password as typed.  Otherwise nothing
    leaves the page, and the error object names each failing field with
    the message of its rule. *)
Theorem login_request_sent_iff_valid `{Js.Casing}
    (server : string → Login.FormValues → Axios.Reply) (e pw : string) :
  (Regex.test Login.email_re (Js.toUpperCase e) = true →
   6 ≤ String.length pw →
   Login.submit server (Login.mkFormValues e pw)
   = Rhf.mkOutcome ∅
       (Login.onSubmit server (Login.mkFormValues (Js.toUpperCase e) pw)))
  ∧ (Regex.test Login.email_re (Js.toUpperCase e) = false
     ∨ String.length pw < 6 →
     Rhf.effects (Login.submit server (Login.mkFormValues e pw)) = [])
  ∧ Rhf.errors (Login.submit server (Login.mkFormValues e pw))
      !! [Zod.Key "email"]
    = (if Regex.test Login.email_re (Js.toUpperCase e) then None
       else Some (Some "Invalid Enrollment number"))
  ∧ Rhf.errors (Login.submit server (Login.mkFormValues e pw))
      !! [Zod.Key "password"]
    = (if 6 <=? String.length pw then None
       else Some (Some "Password must be atleast of 6 characters")).
Proof.
  assert (Hrun :
    Login.formSchema [] (Login.mkFormValues e pw)
    = Zod.mkParsed (Some (Login.mkFormValues (Js.toUpperCase e) pw))
        ((if Regex.test Login.email_re (Js.toUpperCase e) then []
          else [Zod.mkIssue [Zod.Key "email"] (Some "Invalid Enrollment number")])
         ++ (if 6 <=? String.length pw then []
             else [Zod.mkIssue [Zod.Key "password"]
                     (Some "Password must be atleast of 6 characters")]))).
  { unfold Login.formSchema, Login.emailSchema, Zod.field, Zod.refine,
      Zod.transform, Zod.string_, Zod.run_checks, Zod.ap, Zod.min.
    cbn [Zod.value Zod.issues Zod.pure Login.email Login.password fmap
         option_fmap option_map flat_map Zod.holds Zod.msg app].
    destruct (Regex.test Login.email_re (Js.toUpperCase e));
      destruct (6 <=? String.length pw); reflexivity. }
  unfold Login.submit, Rhf.handleSubmit. rewrite Hrun.
  cbn [Zod.value Zod.issues].
  destruct (Regex.test Login.email_re (Js.toUpperCase e)) eqn:Ht;
    destruct (6 <=? String.length pw) eqn:Hp;
    cbn [app Rhf.toErrors foldr Zod.path Zod.message Rhf.errors Rhf.effects];
    repeat split; try done.
  all: try (intros ? Hlen; apply Nat.leb_gt in Hp; lia).
  all: try (intros [?|Hlen]; [done | apply Nat.leb_le in Hp; lia]).
  all: try apply lookup_insert_eq.
  all: try (rewrite lookup_insert_ne by done; apply lookup_insert_eq).
  all: try (by rewrite lookup_insert_ne by done).
Qed.

Lemma login_request_sent_iff_valid_witness :
  @Login.submit Samples.casing (Samples.server (Axios.Response 200 "ok"))
    (Login.mkFormValues "gk1234" "secret1")
  = Rhf.mkOutcome ∅
      (Login.onSubmit (Samples.server (Axios.Response 200 "ok"))
         (Login.mkFormValues "GK1234" "secret1"))
  ∧ @Login.submit Samples.casing (Samples.server (Axios.Response 200 "ok"))
      (Login.mkFormValues (String "223" "1234") "secret1")
    = Rhf.mkOutcome ∅
        (Login.onSubmit (Samples.server (Axios.Response 200 "ok"))
           (Login.mkFormValues "SS1234" "secret1"))
  ∧ Rhf.effects
      (@Login.submit Samples.casing (Samples.server (Axios.Response 200 "ok"))
         (Login.mkFormValues "GK1234" "12345"))
    = [].
Proof.
  split; [|split].
  - refine (proj1 (@login_request_sent_iff_valid Samples.casing
              (Samples.server (Axios.Response 200 "ok")) "gk1234" "secret1")
              _ _).
    + reflexivity.
    + simpl. lia.
  - refine (proj1 (@login_request_sent_iff_valid Samples.casing
              (Samples.server (Axios.Response 200 "ok"))
              (String "223" "1234") "secret1") _ _).
    + reflexivity.
    + simpl. lia.
  - refine (proj1 (proj2 (@login_request_sent_iff_valid Samples.casing
              (Samples.server (Axios.Response 200 "ok")) "GK1234" "12345"))
              _).
    right. simpl. lia.
Defined.

(** ** The course field *)

(** Both variants accept the same courses: a course passes exactly when it
    is one of the three course names.  No selection at all is refused by
    both; the placeholder [SELECT], a member of the enum of
    components/StudentPortfolioForm.tsx, is refused there by the
    refinement, with its message. *)
Theorem course_rules_agree (p : list Zod.Seg) (c : option string) :
  (Zod.issues (Zod.required Portfolio.courseSchema p c) = []
   ↔ ∃ s, c = Some s ∧ s ∈ Portfolio.CourseEnum)
  ∧ (Zod.issues (Zod.required PortfolioStrict.courseSchema p c) = []
     ↔ ∃ s, c = Some s ∧ s ∈ Portfolio.CourseEnum)
  ∧ (c = Some "SELECT" →
     Zod.issues (Zod.required PortfolioStrict.courseSchema p c)
     = [Zod.mkIssue p (Some "You must select a valid course")]).
Proof.
  split; [|split].
  - destruct c as [s|]; simpl.
    + unfold Portfolio.courseSchema, Zod.enum_, Js.includes.
      case_bool_decide as Hs; simpl.
      * split; [eauto|done].
      * split; [done|]. by intros (s' & [= <-] & Hin).
    + split; [done|]. by intros (s & ? & _).
  - destruct c as [s|]; simpl.
    + unfold PortfolioStrict.courseSchema, Zod.refine, Zod.enum_, Js.includes.
      case_bool_decide as Hs; simpl.
      * case_bool_decide as Hsel; simpl.
        -- subst s. split; [done|]. intros (s' & [= <-] & Hin).
           unfold Portfolio.CourseEnum in Hin.
           rewrite !elem_of_cons, elem_of_nil in Hin.
           by destruct Hin as [?|[?|[?|[]]]].
        -- split; [|done]. intros _. exists s. split; [done|].
           rewrite elem_of_cons in Hs. by destruct Hs as [?|?].
      * split; [done|]. intros (s' & [= <-] & Hin). destruct Hs.
        by apply list_elem_of_further.
    + split; [done|]. by intros (s & ? & _).
  - by intros ->.
Qed.

Lemma course_rules_agree_witness :
  Zod.issues (Zod.required PortfolioStrict.courseSchema [Zod.Key "course"]
                (Some "SELECT"))
  = [Zod.mkIssue [Zod.Key "course"] (Some "You must select a valid course")].
Proof.
  exact (proj2 (proj2 (course_rules_agree [Zod.Key "course"] (Some "SELECT")))
           eq_refl).
Defined.

(** ** The picture preview *)

Module PreviewFacts.
Import Preview.

Lemma handle_step (st : State) (ev : Event) :
  fresh (store st) → in_sync st →
  fresh (store (handle st ev))
  ∧ in_sync (handle st ev)
  ∧ size (blobs (store (handle st ev)))
    = size (blobs (store st)) + length (selections [ev])
  ∧ (∀ url file, blobs (store st) !! url = Some file →
                 blobs (store (handle st ev)) !! url = Some file).
Proof.
  intros Hf Hs. destruct ev as [files|]; simpl.
  - unfold onChange. destruct (files !! 0) as [file|] eqn:Hfile; simpl.
    + assert (Hnew : blobs (store st) !! nextUrl (store st) = None).
      { destruct (blobs (store st) !! nextUrl (store st)) eqn:E; [|done].
        pose proof (Hf _ (mk_is_Some _ _ E)). lia. }
      repeat split.
      * intros url [f Hu]. simpl in Hu |- *.
        destruct (decide (nextUrl (store st) = url)) as [<-|Hne]; [lia|].
        rewrite lookup_insert_ne in Hu by done.
        pose proof (Hf url (mk_is_Some _ _ Hu)). lia.
      * unfold in_sync. simpl. exists file. by rewrite lookup_insert_eq.
      * rewrite map_size_insert_None by done. lia.
      * intros url f Hu. simpl.
        rewrite lookup_insert_ne; [done|]. intros <-. congruence.
    + repeat split; [done..|lia|done].
  - unfold in_sync in *.
    destruct (preview st) as [url|] eqn:E; simpl; repeat split; try done.
    all: try (simpl; lia).
    by rewrite E.
Qed.

Lemma run_steps (evs : list Event) :
  ∀ st, fresh (store st) → in_sync st →
        fresh (store (run evs st))
        ∧ in_sync (run evs st)
        ∧ size (blobs (store (run evs st)))
          = size (blobs (store st)) + length (selections evs)
        ∧ (∀ url file, blobs (store st) !! url = Some file →
                       blobs (store (run evs st)) !! url = Some file).
Proof.
  induction evs as [|ev evs IH]; intros st Hf Hs.
  - repeat split; try done; simpl; lia.
  - destruct (handle_step st ev Hf Hs) as (Hf1 & Hs1 & Hn1 & Hk1).
    destruct (IH _ Hf1 Hs1) as (Hf2 & Hs2 & Hn2 & Hk2).
    change (run (ev :: evs) st) with (run evs (handle st ev)).
    repeat split; try done.
    + rewrite Hn2, Hn1.
      assert (length (selections (ev :: evs))
              = length (selections [ev]) + length (selections evs)) as Hadd;
        [|lia].
      unfold selections.
      destruct ev as [fs|]; [destruct (fs !! 0) eqn:E|];
        cbn [omap list_omap]; rewrite ?E; simpl; lia.
    + intros url f Hu. by apply Hk2, Hk1.
Qed.

End PreviewFacts.

(** Whatever is done with the picture field of part_000, starting from the
    untouched form: the preview and the form value stay in step (both
    unset, or the preview is the object URL registered for the picture the
    form holds); a file dialog closed without a file changes nothing; and
    no object URL is ever released: every selection adds one to the store,
    and each one stays registered through all later selections and
    removals, shown or not. *)
Theorem preview_in_sync_and_urls_pile_up (evs more : list Preview.Event) :
  Preview.in_sync (Preview.run evs Preview.initial)
  ∧ Preview.handle (Preview.run evs Preview.initial) (Preview.Change [])
    = Preview.run evs Preview.initial
  ∧ size (Preview.blobs (Preview.store (Preview.run evs Preview.initial)))
    = length (Preview.selections evs)
  ∧ (∀ url file,
       Preview.blobs (Preview.store (Preview.run evs Preview.initial)) !! url
       = Some file →
       Preview.blobs
         (Preview.store (Preview.run more (Preview.run evs Preview.initial)))
         !! url
       = Some file).
Proof.
  assert (Hf0 : Preview.fresh (Preview.store Preview.initial)).
  { intros url [f Hu]. simpl in Hu. by rewrite lookup_empty in Hu. }
  assert (Hs0 : Preview.in_sync Preview.initial) by done.
  destruct (PreviewFacts.run_steps evs _ Hf0 Hs0) as (Hf & Hs & Hn & _).
  destruct (PreviewFacts.run_steps more _ Hf Hs) as (_ & _ & _ & Hk).
  repeat split; done.
Qed.

(** Two pictures chosen and then removed: nothing is shown, nothing is
    held by the form, and both object URLs are still registered. *)
Lemma preview_in_sync_and_urls_pile_up_witness :
  Preview.preview (Preview.run MoreSamples.picture_session Preview.initial)
  = None
  ∧ Preview.profilePicture
      (Preview.run MoreSamples.picture_session Preview.initial) = None
  ∧ size (Preview.blobs
            (Preview.store
               (Preview.run MoreSamples.picture_session Preview.initial)))
    = 2.
Proof.
  split; [reflexivity|]. split; [reflexivity|].
  exact (proj1 (proj2 (proj2
    (preview_in_sync_and_urls_pile_up MoreSamples.picture_session [])))).
Defined.

(** ** Errors of the profile form, field by field (variant of part_000) *)

Module PortfolioPaths.
Import ZodFacts Portfolio.

Lemma issues_map {A B} (f : A → B) (r : Zod.Parsed A) :
  Zod.issues (f <$$> r) = Zod.issues r.
Proof. reflexivity. Qed.

(** The error object of a submit, path by path: the first issue that the
    validation of the document raised there. *)
Lemma errors_lookup {I O E} (schema : Zod.Schema I O) (onValid : O → list E)
    (values : I) (p : list Zod.Seg) :
  Rhf.errors (Rhf.handleSubmit schema onValid values) !! p
  = Zod.message <$> head (Zod.issues_at p (schema [] values)).
Proof.
  unfold Rhf.handleSubmit, Zod.issues_at.
  destruct (Zod.issues (schema [] values)) as [|i iss] eqn:Hiss.
  - destruct (Zod.value (schema [] values)); simpl; apply lookup_empty.
  - cbn [Rhf.errors]. apply (RhfFacts.toErrors_lookup (i :: iss)).
Qed.

(** The handler runs only on an issue-free document. *)
Lemma effects_need_no_issue {I O E} (schema : Zod.Schema I O)
    (onValid : O → list E) (values : I) :
  Zod.issues (schema [] values) ≠ [] →
  Rhf.effects (Rhf.handleSubmit schema onValid values) = [].
Proof. intros Hne. by rewrite RhfFacts.handleSubmit_invalid. Qed.

Section WithFormats.
Context `{Zod.Formats} `{Js.Casing}.

Lemma scoped_language_rows : Zod.scoped progLangSchema.
Proof. unfold progLangSchema. StrictFacts.scoped_object. Qed.

Lemma scoped_skill_rows : Zod.scoped skillsSchema.
Proof. unfold skillsSchema. StrictFacts.scoped_object. Qed.

Lemma scoped_project_rows : Zod.scoped projectSchema.
Proof. unfold projectSchema. StrictFacts.scoped_object. Qed.

Lemma scoped_achievement_rows : Zod.scoped achievementSchema.
Proof. unfold achievementSchema. StrictFacts.scoped_object. Qed.

Lemma scoped_enrollNo_rule : Zod.scoped enrollNoSchema.
Proof. unfold enrollNoSchema. eauto with scoped. Qed.

Lemma scoped_facultyNo_rule : Zod.scoped facultyNoSchema.
Proof. unfold facultyNoSchema. eauto with scoped. Qed.

Lemma scoped_course_rule : Zod.scoped courseSchema.
Proof. unfold courseSchema. eauto with scoped. Qed.

End WithFormats.

(** What the document reports at the path of a text field is what the
    checks of that field report. *)
Ltac isolate_key k :=
  pose proof scoped_language_rows; pose proof scoped_skill_rows;
  pose proof scoped_project_rows; pose proof scoped_achievement_rows;
  pose proof scoped_enrollNo_rule; pose proof scoped_facultyNo_rule;
  pose proof scoped_course_rule;
  unfold Zod.issues_at, FormSchema;
  rewrite !issues_ap, issues_pure, issues_map, !filter_app;
  set (own := filter _ (Zod.issues (Zod.field k _ _ _)));
  rewrite !issues_at_other_key by (eauto 10 with scoped || done);
  rewrite !app_nil_r, ?app_nil_l; subst own; unfold Zod.field;
  apply filter_same_path; apply (run_checks_path _ ([] ++ [Zod.Key k])).

Section WithFormats.
Context `{Zod.Formats} `{Js.Casing}.

Lemma issues_at_name (d : FormData) :
  Zod.issues_at [Zod.Key "name"] (FormSchema [] d)
  = Zod.run_checks [Zod.nonempty (Some "This field is required")]
      [Zod.Key "name"] (name d).
Proof. isolate_key "name". Qed.

Lemma issues_at_title (d : FormData) :
  Zod.issues_at [Zod.Key "title"] (FormSchema [] d)
  = Zod.run_checks [Zod.nonempty (Some "This field is required")]
      [Zod.Key "title"] (title d).
Proof. isolate_key "title". Qed.

Lemma issues_at_about (d : FormData) :
  Zod.issues_at [Zod.Key "about"] (FormSchema [] d)
  = Zod.run_checks [Zod.max 200 (Some "Not more than 200 characters");
                    Zod.nonempty (Some "This field is required")]
      [Zod.Key "about"] (about d).
Proof. isolate_key "about". Qed.

Lemma issues_at_dob (d : FormData) :
  Zod.issues_at [Zod.Key "dob"] (FormSchema [] d)
  = Zod.run_checks [Zod.date (Some "Invalid date");
                    Zod.min 1 (Some "This field is required")]
      [Zod.Key "dob"] (dob d).
Proof. isolate_key "dob". Qed.

Lemma issues_at_address (d : FormData) :
  Zod.issues_at [Zod.Key "address"] (FormSchema [] d)
  = Zod.run_checks [Zod.nonempty (Some "This field is required")]
      [Zod.Key "address"] (address d).
Proof. isolate_key "address". Qed.

Lemma issues_at_semester (d : FormData) :
  Zod.issues_at [Zod.Key "semester"] (FormSchema [] d)
  = Zod.run_checks [Zod.nonempty (Some "Semester is Required")]
      [Zod.Key "semester"] (semester d).
Proof. isolate_key "semester". Qed.

Lemma issues_at_email (d : FormData) :
  Zod.issues_at [Zod.Key "email"] (FormSchema [] d)
  = Zod.run_checks [Zod.email None;
                    Zod.nonempty (Some "This field is required")]
      [Zod.Key "email"] (email d).
Proof. isolate_key "email". Qed.

Lemma issues_at_github (d : FormData) :
  Zod.issues_at [Zod.Key "github"] (FormSchema [] d)
  = Zod.run_checks [Zod.url None] [Zod.Key "github"] (github d).
Proof. isolate_key "github". Qed.

Lemma issues_at_linkedin (d : FormData) :
  Zod.issues_at [Zod.Key "linkedin"] (FormSchema [] d)
  = Zod.run_checks [Zod.url None] [Zod.Key "linkedin"] (linkedin d).
Proof. isolate_key "linkedin". Qed.

End WithFormats.

End PortfolioPaths.

(** ** The semester field and the course *)

(** C2, as amended.  In the variant with the semester pattern the semester
    field is checked by a rule of its own, on the semester text alone:
    whatever course is selected, validating the whole document reports the
    same issues at [semester], and the field passes exactly when the text
    matches the pattern (which spells the course name inside the semester
    text).  The variant of part_000 does not read the course either: its
    issues at [semester] are the same whatever course is selected, and
    there is none exactly when the semester text is not empty. *)
Theorem semester_rule_ignores_course `{Zod.Formats} `{Js.Casing}
    (d : PortfolioStrict.FormValues) (d0 : Portfolio.FormData)
    (c : option string) :
  Zod.issues_at [Zod.Key "semester"]
    (PortfolioStrict.FormSchema [] (PortfolioStrict.with_course c d))
  = Zod.issues_at [Zod.Key "semester"] (PortfolioStrict.FormSchema [] d)
  ∧ PortfolioStrict.semester_passes (PortfolioStrict.with_course c d)
    = PortfolioStrict.semester_passes d
  ∧ PortfolioStrict.semester_passes d
    = Regex.test PortfolioStrict.semester_re (PortfolioStrict.semester d)
  ∧ Zod.issues_at [Zod.Key "semester"]
      (Portfolio.FormSchema [] (Portfolio.with_course c d0))
    = Zod.issues_at [Zod.Key "semester"] (Portfolio.FormSchema [] d0)
  ∧ (Zod.issues_at [Zod.Key "semester"] (Portfolio.FormSchema [] d0) = []
     ↔ Portfolio.semester d0 ≠ "").
Proof.
  split; [|split; [|split; [|split]]].
  - by rewrite !StrictFacts.semester_issues_in_document.
  - by rewrite !StrictFacts.semester_passes_iff.
  - apply StrictFacts.semester_passes_iff.
  - by rewrite !PortfolioPaths.issues_at_semester.
  - rewrite PortfolioPaths.issues_at_semester.
    by destruct (Portfolio.semester d0).
Qed.

(** C2 as stated does not hold: no semester text passes under one course
    selection and fails under another. *)
Lemma semester_never_depends_on_course :
  ¬ ∃ (F : Zod.Formats) (d : PortfolioStrict.FormValues) (s : string)
      (c1 c2 : option string),
      @PortfolioStrict.semester_passes F
        (PortfolioStrict.with_course c1 (PortfolioStrict.with_semester s d))
      = true
      ∧ @PortfolioStrict.semester_passes F
          (PortfolioStrict.with_course c2 (PortfolioStrict.with_semester s d))
        = false.
Proof.
  intros (F & d & s & c1 & c2 & H1 & H2).
  rewrite StrictFacts.semester_passes_iff in H1, H2. simpl in H1, H2.
  congruence.
Qed.

(** The error shown at each text field of the profile form is decided by
    that field alone, and when two of its checks fail the earlier one is
    shown: name, title and address are required; [about] is refused above
    200 characters and when empty; the date of birth shows [Invalid date]
    unless it is a date; the semester only has to be there; e-mail and the
    two links show the library's wording when their format check fails. *)
Theorem text_field_errors `{Zod.Formats} `{Js.Casing} (d : Portfolio.FormData) :
  Rhf.errors (Portfolio.submit d) !! [Zod.Key "name"]
  = (if bool_decide (Portfolio.name d = "") 
     then Some (Some "This field is required") else None)
  ∧ Rhf.errors (Portfolio.submit d) !! [Zod.Key "title"]
    = (if bool_decide (Portfolio.title d = "")
       then Some (Some "This field is required") else None)
  ∧ Rhf.errors (Portfolio.submit d) !! [Zod.Key "about"]
    = (if 200 <? String.length (Portfolio.about d)
       then Some (Some "Not more than 200 characters")
       else if bool_decide (Portfolio.about d = "")
            then Some (Some "This field is required") else None)
  ∧ Rhf.errors (Portfolio.submit d) !! [Zod.Key "dob"]
    = (if Zod.is_date (Portfolio.dob d)
       then if bool_decide (Portfolio.dob d = "")
            then Some (Some "This field is required") else None
       else Some (Some "Invalid date"))
  ∧ Rhf.errors (Portfolio.submit d) !! [Zod.Key "address"]
    = (if bool_decide (Portfolio.address d = "")
       then Some (Some "This field is required") else None)
  ∧ Rhf.errors (Portfolio.submit d) !! [Zod.Key "semester"]
    = (if bool_decide (Portfolio.semester d = "")
       then Some (Some "Semester is Required") else None)
  ∧ Rhf.errors (Portfolio.submit d) !! [Zod.Key "email"]
    = (if Zod.is_email (Portfolio.email d)
       then if bool_decide (Portfolio.email d = "")
            then Some (Some "This field is required") else None
       else Some None)
  ∧ Rhf.errors (Portfolio.submit d) !! [Zod.Key "github"]
    = (if Zod.is_url (Portfolio.github d) then None else Some None)
  ∧ Rhf.errors (Portfolio.submit d) !! [Zod.Key "linkedin"]
    = (if Zod.is_url (Portfolio.linkedin d) then None else Some None).
Proof.
  unfold Portfolio.submit. rewrite !PortfolioPaths.errors_lookup.
  rewrite PortfolioPaths.issues_at_name, PortfolioPaths.issues_at_title,
    PortfolioPaths.issues_at_about, PortfolioPaths.issues_at_dob,
    PortfolioPaths.issues_at_address, PortfolioPaths.issues_at_semester,
    PortfolioPaths.issues_at_email, PortfolioPaths.issues_at_github,
    PortfolioPaths.issues_at_linkedin.
  unfold Zod.run_checks, Zod.nonempty, Zod.min, Zod.max, Zod.date, Zod.email,
    Zod.url.
  cbn [flat_map Zod.holds Zod.msg].
  repeat split.
  - by destruct (Portfolio.name d).
  - by destruct (Portfolio.title d).
  - rewrite (Nat.leb_antisym 200).
    destruct (200 <? String.length (Portfolio.about d)) eqn:Hlen; [done|].
    by destruct (Portfolio.about d).
  - destruct (Zod.is_date (Portfolio.dob d)); [|done].
    by destruct (Portfolio.dob d).
  - by destruct (Portfolio.address d).
  - by destruct (Portfolio.semester d).
  - destruct (Zod.is_email (Portfolio.email d)); [|done].
    by destruct (Portfolio.email d).
  - by destruct (Zod.is_url (Portfolio.github d)).
  - by destruct (Zod.is_url (Portfolio.linkedin d)).
Qed.

(** ** The rows of the sub-lists *)

Module RowFacts.
Import ZodFacts Portfolio.

Lemma concat_nil {A} (ls : list (list A)) (l : list A) :
  concat ls = [] → l ∈ ls → l = [].
Proof.
  induction ls as [|l' ls IH]; simpl.
  - intros _ Hin. by apply elem_of_nil in Hin.
  - intros Hc Hin. apply app_eq_nil in Hc as [Hl' Hls].
    apply elem_of_cons in Hin as [->|Hin]; auto.
Qed.

(** An issue-free array has issue-free rows. *)
Lemma array_rows_pass {I O} (sch : Zod.Schema I O) (p : list Zod.Seg)
    (xs : list I) (x : I) :
  Zod.issues (Zod.array sch p xs) = [] → x ∈ xs →
  ∃ q, Zod.issues (sch q x) = [].
Proof.
  rewrite array_issues. intros Hnil [i Hi]%list_elem_of_lookup.
  exists (p ++ [Zod.Idx i]). apply (concat_nil _ _ Hnil).
  by apply (elem_of_lookup_imap_2
              (λ i x, Zod.issues (sch (p ++ [Zod.Idx i]) x))).
Qed.

Lemma nonempty_iff (s : string) : (1 <=? String.length s) = true ↔ s ≠ "".
Proof. by destruct s. Qed.

Section WithFormats.
Context `{Zod.Formats} `{Js.Casing}.

Lemma progLang_rule (p : list Zod.Seg) (x : ProgLang) :
  Zod.issues (progLangSchema p x) = []
  ↔ lang_name x ≠ "" ∧ lang_fluency x ∈ FluencyEnum.
Proof.
  unfold progLangSchema, Zod.field, Zod.enum_, Js.includes, Zod.string_,
    Zod.run_checks, Zod.nonempty, Zod.min.
  rewrite !issues_ap, issues_pure. cbn [Zod.issues flat_map Zod.holds Zod.msg].
  rewrite <- nonempty_iff.
  destruct (1 <=? String.length (lang_name x));
    destruct (bool_decide (lang_fluency x ∈ FluencyEnum)) eqn:Hf;
    [apply bool_decide_eq_true in Hf | apply bool_decide_eq_false in Hf
    |apply bool_decide_eq_true in Hf | apply bool_decide_eq_false in Hf];
    simpl; intuition congruence.
Qed.

Lemma skill_rule (p : list Zod.Seg) (x : Skill) :
  Zod.issues (skillsSchema p x) = [] ↔ skill_fluency x ∈ FluencyEnum.
Proof.
  unfold skillsSchema, Zod.field, Zod.enum_, Js.includes, Zod.string_,
    Zod.run_checks.
  rewrite !issues_ap, issues_pure. cbn [Zod.issues flat_map].
  destruct (bool_decide (skill_fluency x ∈ FluencyEnum)) eqn:Hf;
    [apply bool_decide_eq_true in Hf | apply bool_decide_eq_false in Hf];
    simpl; intuition congruence.
Qed.

Lemma achievement_rule (p : list Zod.Seg) (x : Achievement) :
  Zod.issues (achievementSchema p x) = [] ↔ ach_name x ≠ "".
Proof.
  unfold achievementSchema, Zod.field, Zod.string_, Zod.run_checks,
    Zod.nonempty, Zod.min.
  rewrite !issues_ap, issues_pure. cbn [Zod.issues flat_map Zod.holds Zod.msg].
  rewrite <- nonempty_iff.
  destruct (1 <=? String.length (ach_name x)); simpl; intuition congruence.
Qed.

Lemma project_rule (p : list Zod.Seg) (x : Project) :
  Zod.issues (projectSchema p x) = []
  ↔ 2 ≤ String.length (projectName x)
    ∧ 10 ≤ String.length (projectDescription x)
    ∧ (∀ l, projectLink x = Some l → Zod.is_url l = true)
    ∧ 2 ≤ String.length (projectDuration x).
Proof.
  unfold projectSchema, Zod.field, Zod.optional, Zod.string_, Zod.run_checks,
    Zod.min, Zod.url.
  rewrite !issues_ap, issues_pure.
  rewrite <- !(Nat.leb_le).
  destruct (projectLink x) as [l|];
    cbn [Zod.issues Zod.pure flat_map Zod.holds Zod.msg];
    destruct (2 <=? String.length (projectName x));
    destruct (10 <=? String.length (projectDescription x));
    destruct (2 <=? String.length (projectDuration x));
    try destruct (Zod.is_url l) eqn:Hl; simpl;
    (split; [try discriminate; intros _; repeat split; try done; congruence
            |intros (? & ? & Hu & ?); try done;
             try (specialize (Hu _ eq_refl)); congruence]).
Qed.

End WithFormats.

End RowFacts.

(** The submit handler of part_000 is reached only when every row of every
    sub-list satisfies the rule of its section: a language needs a name
    and a listed fluency; a skill needs only a listed fluency (its name
    may stay empty); a project needs a name of 2, a description of 10 and
    a duration of 2 characters, and its link, unless it is undefined, must
    be a URL (the empty text of an untouched link input is checked like
    any other text); an achievement needs a name. *)
Theorem handler_needs_valid_rows `{Zod.Formats} `{Js.Casing} (d : Portfolio.FormData) :
  Rhf.effects (Portfolio.submit d) ≠ [] →
  (∀ x, x ∈ Portfolio.progLangs d →
        Portfolio.lang_name x ≠ ""
        ∧ Portfolio.lang_fluency x ∈ Portfolio.FluencyEnum)
  ∧ (∀ x, x ∈ Portfolio.skills d →
          Portfolio.skill_fluency x ∈ Portfolio.FluencyEnum)
  ∧ (∀ x, x ∈ Portfolio.projects d →
          2 ≤ String.length (Portfolio.projectName x)
          ∧ 10 ≤ String.length (Portfolio.projectDescription x)
          ∧ (∀ l, Portfolio.projectLink x = Some l → Zod.is_url l = true)
          ∧ 2 ≤ String.length (Portfolio.projectDuration x))
  ∧ (∀ x, x ∈ Portfolio.achievements d → Portfolio.ach_name x ≠ "").
Proof.
  intros Heff.
  assert (Hiss : Zod.issues (Portfolio.FormSchema [] d) = []).
  { destruct (Zod.issues (Portfolio.FormSchema [] d)) eqn:E; [done|].
    destruct Heff. apply PortfolioPaths.effects_need_no_issue. by rewrite E. }
  unfold Portfolio.FormSchema in Hiss.
  rewrite !ZodFacts.issues_ap, ZodFacts.issues_pure in Hiss.
  repeat match goal with
         | H : _ ++ _ = [] |- _ => apply app_eq_nil in H as [H ?]
         end.
  unfold Zod.field in *.
  split; [|split; [|split]]; intros x Hx.
  all: match goal with
       | Harr : Zod.issues (Zod.array ?sch _ ?xs) = [], Hin : _ ∈ ?xs |- _ =>
           destruct (RowFacts.array_rows_pass sch _ _ _ Harr Hin) as [q Hq]
       end.
  - by apply RowFacts.progLang_rule in Hq.
  - by apply RowFacts.skill_rule in Hq.
  - by apply RowFacts.project_rule in Hq.
  - by apply RowFacts.achievement_rule in Hq.
Qed.

Lemma handler_needs_valid_rows_witness :
  Portfolio.skill_fluency (Portfolio.mkSkill "Testing" "Intermediate")
  ∈ Portfolio.FluencyEnum.
Proof.
  refine (proj1 (proj2
    (@handler_needs_valid_rows Samples.formats Samples.casing
       Samples.profile _)) _ _).
  - vm_compute. discriminate.
  - elem_of_literal.
Defined.

Module RowPaths.
Import ZodFacts Portfolio.

Lemma elem_of_concat {A} (ls : list (list A)) (l : list A) (x : A) :
  l ∈ ls → x ∈ l → x ∈ concat ls.
Proof.
  induction ls as [|l' ls IH]; simpl.
  - intros Hin. by apply elem_of_nil in Hin.
  - intros Hin Hx. apply elem_of_app.
    apply elem_of_cons in Hin as [->|Hin]; auto.
Qed.

(** An issue of a row is an issue of its array. *)
Lemma row_issue_in_array {I O} (sch : Zod.Schema I O) (p : list Zod.Seg)
    (xs : list I) (i : nat) (x : I) (e : Zod.Issue) :
  xs !! i = Some x → e ∈ Zod.issues (sch (p ++ [Zod.Idx i]) x) →
  e ∈ Zod.issues (Zod.array sch p xs).
Proof.
  intros Hx He. rewrite array_issues.
  apply (elem_of_concat _ (Zod.issues (sch (p ++ [Zod.Idx i]) x))); [|done].
  by apply (elem_of_lookup_imap_2
              (λ i x, Zod.issues (sch (p ++ [Zod.Idx i]) x))).
Qed.

(** An issue blocks the submit and shows at its path. *)
Lemma issue_blocks {I O E} (schema : Zod.Schema I O) (onValid : O → list E)
    (values : I) (e : Zod.Issue) :
  e ∈ Zod.issues (schema [] values) →
  Rhf.effects (Rhf.handleSubmit schema onValid values) = []
  ∧ is_Some (Rhf.errors (Rhf.handleSubmit schema onValid values)
               !! Zod.path e).
Proof.
  intros He.
  assert (Hne : Zod.issues (schema [] values) ≠ []).
  { intros Hnil. rewrite Hnil in He. by apply elem_of_nil in He. }
  rewrite RhfFacts.handleSubmit_invalid by done. split; [done|].
  apply RhfFacts.toErrors_is_Some. eauto.
Qed.

End RowPaths.

(** A row that breaks its rule blocks the submit of part_000, and the error
    object has an entry under the index of that row: at
    [progLangs.i.name] for a language without a name, at
    [achievements.i.name] for an achievement without a name, and at
    [projects.i.projectLink] for a project whose link text is not a URL. *)
Theorem failing_row_is_reported_at_its_index `{Zod.Formats} `{Js.Casing}
    (d : Portfolio.FormData) (i : nat) :
  (∀ x, Portfolio.progLangs d !! i = Some x → Portfolio.lang_name x = "" →
        Rhf.effects (Portfolio.submit d) = []
        ∧ is_Some (Rhf.errors (Portfolio.submit d)
                     !! [Zod.Key "progLangs"; Zod.Idx i; Zod.Key "name"]))
  ∧ (∀ x, Portfolio.achievements d !! i = Some x →
          Portfolio.ach_name x = "" →
          Rhf.effects (Portfolio.submit d) = []
          ∧ is_Some (Rhf.errors (Portfolio.submit d)
                       !! [Zod.Key "achievements"; Zod.Idx i; Zod.Key "name"]))
  ∧ (∀ x l, Portfolio.projects d !! i = Some x →
            Portfolio.projectLink x = Some l → Zod.is_url l = false →
            Rhf.effects (Portfolio.submit d) = []
            ∧ is_Some (Rhf.errors (Portfolio.submit d)
                         !! [Zod.Key "projects"; Zod.Idx i;
                             Zod.Key "projectLink"])).
Proof.
  split; [|split].
  - intros x Hx Hname.
    apply (RowPaths.issue_blocks Portfolio.FormSchema Portfolio.onSubmit d
             (Zod.mkIssue [Zod.Key "progLangs"; Zod.Idx i; Zod.Key "name"] None)).
    unfold Portfolio.FormSchema.
    rewrite !ZodFacts.issues_ap, !elem_of_app.
    do 7 left. right. unfold Zod.field.
    apply (RowPaths.row_issue_in_array _ _ _ i x); [done|].
    unfold Portfolio.progLangSchema, Zod.field.
    rewrite !ZodFacts.issues_ap, !elem_of_app. left. right.
    rewrite Hname. elem_of_literal.
  - intros x Hx Hname.
    apply (RowPaths.issue_blocks Portfolio.FormSchema Portfolio.onSubmit d
             (Zod.mkIssue [Zod.Key "achievements"; Zod.Idx i; Zod.Key "name"]
                (Some "This field is required"))).
    unfold Portfolio.FormSchema.
    rewrite !ZodFacts.issues_ap, !elem_of_app.
    do 4 left. right. unfold Zod.field.
    apply (RowPaths.row_issue_in_array _ _ _ i x); [done|].
    unfold Portfolio.achievementSchema, Zod.field.
    rewrite !ZodFacts.issues_ap, !elem_of_app. right.
    rewrite Hname. elem_of_literal.
  - intros x l Hx Hlink Hurl.
    apply (RowPaths.issue_blocks Portfolio.FormSchema Portfolio.onSubmit d
             (Zod.mkIssue [Zod.Key "projects"; Zod.Idx i; Zod.Key "projectLink"]
                None)).
    unfold Portfolio.FormSchema.
    rewrite !ZodFacts.issues_ap, !elem_of_app.
    do 5 left. right. unfold Zod.field.
    apply (RowPaths.row_issue_in_array _ _ _ i x); [done|].
    unfold Portfolio.projectSchema, Zod.field.
    rewrite !ZodFacts.issues_ap, !elem_of_app. left. right.
    rewrite Hlink. simpl. rewrite Hurl. elem_of_literal.
Qed.

Lemma failing_row_is_reported_at_its_index_witness :
  Rhf.effects
    (@Portfolio.submit Samples.formats Samples.casing
       MoreSamples.profile_with_blank_language)
  = []
  ∧ is_Some
      (Rhf.errors
         (@Portfolio.submit Samples.formats Samples.casing
            MoreSamples.profile_with_blank_language)
         !! [Zod.Key "progLangs"; Zod.Idx 1; Zod.Key "name"]).
Proof.
  exact (proj1 (@failing_row_is_reported_at_its_index Samples.formats
                  Samples.casing MoreSamples.profile_with_blank_language 1)
           (Portfolio.mkProgLang "" "Beginner") eq_refl eq_refl).
Defined.

(** ** Consequences for whole submits *)

(** The form of components/StudentPortfolioForm.tsx cannot be submitted.
    Its picture field holds nothing or the file list of the input, and
    either way the picture schema raises the first issue of the document;
    and its [address] has no input, so it stays undefined and is refused
    too.  In each case the handler does not run and the error object has
    the entry. *)
Theorem strict_form_never_submits `{Zod.Formats}
    (d : PortfolioStrict.FormValues) :
  (PortfolioStrict.profilePicture d = Dom.Undefined →
   Rhf.effects (PortfolioStrict.submit d) = []
   ∧ Rhf.errors (PortfolioStrict.submit d) !! [Zod.Key "profilePicture"]
     = Some None)
  ∧ (∀ files, PortfolioStrict.profilePicture d = Dom.FileList files →
       Rhf.effects (PortfolioStrict.submit d) = []
       ∧ Rhf.errors (PortfolioStrict.submit d)
           !! [Zod.Key "profilePicture"; Zod.Key "profilePicture"]
         = Some (Some "Please upload a file."))
  ∧ (PortfolioStrict.address d = None →
     Rhf.effects (PortfolioStrict.submit d) = []
     ∧ is_Some (Rhf.errors (PortfolioStrict.submit d) !! [Zod.Key "address"])).
Proof.
  assert (Hfirst : ∀ i, 
    (∃ rest, Zod.issues (PortfolioStrict.FormSchema [] d) = i :: rest) →
    Rhf.effects (PortfolioStrict.submit d) = []
    ∧ Rhf.errors (PortfolioStrict.submit d) !! Zod.path i
      = Some (Zod.message i)).
  { intros i [rest Hi]. unfold PortfolioStrict.submit.
    rewrite RhfFacts.handleSubmit_invalid by (by rewrite Hi).
    rewrite Hi. split; [done|]. apply RhfFacts.toErrors_first. }
  split; [|split].
  - intros Hpic.
    apply (Hfirst (Zod.mkIssue [Zod.Key "profilePicture"] None)).
    unfold PortfolioStrict.FormSchema.
    rewrite !ZodFacts.issues_ap, ZodFacts.issues_pure, <- !(assoc_L (++)).
    unfold Zod.field at 1. rewrite Hpic. by eexists.
  - intros files Hpic.
    apply (Hfirst (Zod.mkIssue
                     [Zod.Key "profilePicture"; Zod.Key "profilePicture"]
                     (Some "Please upload a file."))).
    unfold PortfolioStrict.FormSchema.
    rewrite !ZodFacts.issues_ap, ZodFacts.issues_pure, <- !(assoc_L (++)).
    unfold Zod.field at 1. rewrite Hpic. by eexists.
  - intros Haddr.
    apply (RowPaths.issue_blocks PortfolioStrict.FormSchema
             PortfolioStrict.onSubmit d (Zod.mkIssue [Zod.Key "address"] None)).
    unfold PortfolioStrict.FormSchema.
    rewrite !ZodFacts.issues_ap, !elem_of_app.
    do 12 left. right. unfold Zod.field. rewrite Haddr. elem_of_literal.
Qed.

Lemma strict_form_never_submits_witness :
  Rhf.effects (@PortfolioStrict.submit Samples.formats Samples.strict_profile)
  = []
  ∧ Rhf.errors (@PortfolioStrict.submit Samples.formats Samples.strict_profile)
      !! [Zod.Key "profilePicture"; Zod.Key "profilePicture"]
    = Some (Some "Please upload a file.").
Proof.
  exact (proj1 (proj2 (@strict_form_never_submits Samples.formats
                         Samples.strict_profile)) _ eq_refl).
Defined.



(** The login page and the profile form agree on enrollment numbers: the
    login field is validated exactly like [enrollNo] in part_000 (same
    upper-casing, same pattern, same message), and a number that the form
    of components/StudentPortfolioForm.tsx accepts as typed is accepted by
    the login unchanged. *)
Theorem login_accepts_profile_enrollment_numbers `{Js.Casing}
    (p : list Zod.Seg) (s : string) :
  Login.emailSchema p s = Portfolio.enrollNoSchema p s
  ∧ (Zod.issues (PortfolioStrict.enrollNoSchema p s) = [] →
     Login.emailSchema p s = Zod.mkParsed (Some s) []).
Proof.
  split; [reflexivity|].
  unfold PortfolioStrict.enrollNoSchema, Zod.string_, Zod.run_checks,
    Zod.regex.
  cbn [Zod.issues flat_map Zod.holds Zod.msg].
  destruct (Regex.test PortfolioStrict.enrollNo_re s) eqn:Ht; [|done].
  intros _.
  pose proof (JsFacts.test_upper_fixed _ _ JsFacts.enrollNo_alphabet_upper Ht)
    as Hup.
  unfold Login.emailSchema, Zod.refine, Zod.transform, Zod.string_.
  cbn [Zod.issues Zod.value Zod.run_checks flat_map fmap option_fmap
       option_map].
  rewrite Hup.
  change (Regex.test Login.email_re s)
    with (Regex.test PortfolioStrict.enrollNo_re s).
  by rewrite Ht.
Qed.

Lemma login_accepts_profile_enrollment_numbers_witness :
  @Login.emailSchema Samples.casing [Zod.Key "email"] "GK1234"
  = Zod.mkParsed (Some "GK1234") [].
Proof.
  exact (proj2 (@login_accepts_profile_enrollment_numbers Samples.casing
                  [Zod.Key "email"] "GK1234") eq_refl).
Defined.
